(** * Label table, inference handler and device publisher

    A shallow embedding of the Python sources of the repository:

    - [lamba_function-.../lambda_function.py]: the label loader
      [load_labels_from_csv], the helper [publish_response] and the
      inference handler [lambda_handler];
    - [lamba_function-.../lambda_function copy 2.py] and
      [lamba_function/src/lambda_function.py]: the two earlier handlers;
    - [connect_device_package/pub2.py]: the device publisher.

    Python values coming from JSON are modelled by the type [value]; calls
    into libraries (json, base64, PIL, boto3, csv, the interpreter's own
    number formatting) are fields of a [Runtime] record or arguments of the
    functions, so that every statement holds for every behaviour of those
    libraries. *)

From Stdlib Require Import ZArith QArith String List Lia SpecFloat DecimalString.
From stdpp Require Import base list strings.

Local Open Scope string_scope.
Local Open Scope Z_scope.

(** ** Python values and exceptions *)

(** The Python values that JSON decoding produces: [None], [bool], [int],
    [float], [str], [list] and [dict] (with distinct string keys, in
    insertion order). A float is an IEEE 754 binary64 value. *)
#[warnings="-register-all"]
Inductive value :=
| VNone
| VBool (b : bool)
| VInt (z : Z)
| VFloat (f : spec_float)
| VStr (s : string)
| VList (l : list value)
| VDict (d : list (string * value)).

(** [d.get(key)] and [key in d] on a dict. *)
Fixpoint dict_get (d : list (string * value)) (key : string) : option value :=
  match d with
  | [] => None
  | (k, v) :: d' => if String.eqb k key then Some v else dict_get d' key
  end.

(** The keys of a dict, in order. *)
Definition keys (d : list (string * value)) : list string := map fst d.

(** Truth value of a value, as [not x] and [if x] test it. *)
Definition truthy (v : value) : bool :=
  match v with
  | VNone => false
  | VBool b => b
  | VInt z => negb (z =? 0)
  | VFloat (S754_zero _) => false
  | VFloat _ => true
  | VStr s => negb (String.eqb s "")
  | VList [] => false
  | VList _ => true
  | VDict [] => false
  | VDict _ => true
  end.

(** [str(type(v))], used in the message of line 166. *)
Definition type_repr (v : value) : string :=
  match v with
  | VNone => "<class 'NoneType'>"
  | VBool _ => "<class 'bool'>"
  | VInt _ => "<class 'int'>"
  | VFloat _ => "<class 'float'>"
  | VStr _ => "<class 'str'>"
  | VList _ => "<class 'list'>"
  | VDict _ => "<class 'dict'>"
  end.

(** A caught exception: [str(e)] and [traceback.format_exc()]. *)
Record exn := Exn { exn_str : string; exn_traceback : string }.

(** The result of code that may raise an [Exception]. *)
Inductive result (A : Type) :=
| Ok (a : A)
| Raised (e : exn).
Arguments Ok {A} a.
Arguments Raised {A} e.

#[export] Instance result_ret : MRet result := fun _ a => Ok a.
#[export] Instance result_bind : MBind result := fun _ _ f r =>
  match r with
  | Ok a => f a
  | Raised e => Raised e
  end.

(** The exceptions that the interpreter's own operations raise in the
    handler; their text is the interpreter's. *)
Inductive builtin_failure :=
| NoGetAttribute (v : value)     (* [v.get] on a value that is no dict: AttributeError *)
| NoLen (v : value)              (* [len(v)] on None, a bool or a number: TypeError *)
| MaxOfEmpty                     (* [max([])]: ValueError *)
| NotNumbers (l : list value)    (* [max(l)] or [f"{max(l):.4f}"] where [l] holds a value
                                    that is no number: TypeError or ValueError *)
| FormatOverflow (z : Z)         (* [f"{z:.4f}"], int too large for a float: OverflowError *)
| NotInList.                     (* [l.index(x)], [x] not in [l]: ValueError *)

(** ** Numbers and their comparison

    Python compares ints, bools and floats by their exact mathematical
    values; a NaN is unordered and unequal to everything. *)
Inductive number :=
| NBool (b : bool)
| NInt (z : Z)
| NFloat (f : spec_float).

Inductive xreal :=
| XNaN
| XNegInf
| XFin (q : Q)
| XPosInf.

Definition float_value (f : spec_float) : xreal :=
  match f with
  | S754_zero _ => XFin 0
  | S754_infinity s => if s then XNegInf else XPosInf
  | S754_nan => XNaN
  | S754_finite s m e =>
      XFin ((if s then inject_Z (Z.neg m) else inject_Z (Z.pos m)) * Qpower 2 e)
  end.

Definition number_value (n : number) : xreal :=
  match n with
  | NBool b => XFin (if b then 1 else 0)
  | NInt z => XFin (inject_Z z)
  | NFloat f => float_value f
  end.

(** [a > b] on exact values. *)
Definition x_gt (a b : xreal) : bool :=
  match a, b with
  | XNaN, _ | _, XNaN => false
  | XNegInf, _ => false
  | XFin _, XNegInf => true
  | XFin p, XFin q => match Qcompare p q with Gt => true | _ => false end
  | XFin _, XPosInf => false
  | XPosInf, XPosInf => false
  | XPosInf, _ => true
  end.

(** [a == b] on exact values. *)
Definition x_eq (a b : xreal) : bool :=
  match a, b with
  | XNegInf, XNegInf | XPosInf, XPosInf => true
  | XFin p, XFin q => Qeq_bool p q
  | _, _ => false
  end.

Definition is_nan (a : xreal) : bool :=
  match a with XNaN => true | _ => false end.

Definition py_gt (a b : number) : bool := x_gt (number_value a) (number_value b).

(** [a is b or a == b], the test of [list.index], on the numbers of a list
    decoded by [json.loads]: equal numbers, or two NaNs, since the decoder
    returns one shared NaN object for every [NaN] token and an object is
    identical to itself. *)
Definition py_same (a b : number) : bool :=
  x_eq (number_value a) (number_value b)
  || (is_nan (number_value a) && is_nan (number_value b)).

Definition value_of_number (n : number) : value :=
  match n with
  | NBool b => VBool b
  | NInt z => VInt z
  | NFloat f => VFloat f
  end.

Definition number_of_value (v : value) : option number :=
  match v with
  | VBool b => Some (NBool b)
  | VInt z => Some (NInt z)
  | VFloat f => Some (NFloat f)
  | _ => None
  end.

(** The list as numbers, when every element is one. *)
Fixpoint as_numbers (l : list value) : option (list number) :=
  match l with
  | [] => Some []
  | v :: l' =>
      match number_of_value v, as_numbers l' with
      | Some n, Some ns => Some (n :: ns)
      | _, _ => None
      end
  end.

(** [max]: the running maximum is replaced by an item only when
    [item > maxitem]. *)
Fixpoint max_from (maxitem : number) (rest : list number) : number :=
  match rest with
  | [] => maxitem
  | item :: rest' => max_from (if py_gt item maxitem then item else maxitem) rest'
  end.

(** [l.index(x)]: the first position whose element is [x]. *)
Fixpoint index_from (x : number) (l : list number) (i : nat) : option nat :=
  match l with
  | [] => None
  | y :: l' => if py_same y x then Some i else index_from x l' (S i)
  end.

(** An int converts to a float (as the [:.4f] format needs) when it rounds
    to a finite binary64 value. *)
Definition int_fits_float (z : Z) : bool := Z.abs z <? 2 ^ 1024 - 2 ^ 970.

(** ** Module state of [lambda_function.py] *)

(** The module-level globals (lines 15-25). An entry of the label table is
    [None] for Python's [None]; [iot_data_client] tells whether the client
    object is truthy. *)
Record globals := Globals {
  SAGEMAKER_ENDPOINT_NAME : string;
  RESPONSE_TOPIC : string;
  iot_data_client : bool;
  IMAGENET_LABELS : list (option string);
  LABELS_LOADED_SUCCESSFULLY : bool
}.

(** The globals after lines 15-25, for the two environment variables read
    there. *)
Definition initial_globals (endpoint topic : string) : globals :=
  Globals endpoint topic true [] false.

(** The assignments of the loader to its two globals. *)
Definition set_labels (labels : list (option string)) (loaded : bool) (g : globals)
  : globals :=
  Globals (SAGEMAKER_ENDPOINT_NAME g) (RESPONSE_TOPIC g) (iot_data_client g)
          labels loaded.

(** ** Label loading: [load_labels_from_csv] *)

(** What [open(filename)] and [csv.reader] deliver: the file is missing
    ([FileNotFoundError]), or the rows were read to the end, or some other
    exception interrupted the reading after the rows given (an exception of
    [open] itself is [FileBroken []]). A row is the list of its fields. *)
Inductive csv_file :=
| FileMissing
| FileBroken (rows_before : list (list string))
| FileRows (rows : list (list string)).

Section Loader.

(** [int(row[0])]: [None] when it raises [ValueError]. *)
Variable py_int : string -> option Z.

(** Lines 37-52, the body of the [for] loop, on the pair
    [(labels_temp, count)]. *)
Definition process_row (st : list (option string) * Z) (row : list string)
  : list (option string) * Z :=
  let '(labels_temp, count) := st in
  match row with
  | [c0; c1] =>                              (* len(row) == 2 *)
      match py_int c0 with
      | Some index =>
          if bool_decide (0 <= index < 1000) then
            match labels_temp !! Z.to_nat index with
            | Some None => (<[Z.to_nat index := Some c1]> labels_temp, count + 1)
            | Some (Some _) => st            (* duplicate index: warning *)
            | None => st                     (* IndexError, caught at line 51 *)
            end
          else st                            (* out of bounds: warning *)
      | None => st                           (* ValueError, caught at line 51 *)
      end
  | _ => st                                  (* malformed row: warning *)
  end.

(** Lines 31-36: the loop over the rows, from [[None] * 1000] and [0]. *)
Definition read_rows (rows : list (list string)) : list (option string) * Z :=
  fold_left process_row rows (replicate 1000 None, 0).

(** Line 54: [all(label is not None for label in labels_temp)]. *)
Definition all_present (labels_temp : list (option string)) : bool :=
  forallb (fun label => match label with Some _ => true | None => false end) labels_temp.

(** Lines 28-70. Every path assigns both globals. *)
Definition load_labels_from_csv (file : csv_file) (g : globals) : globals :=
  match file with
  | FileRows rows =>
      let '(labels_temp, count) := read_rows rows in
      if (count =? 1000) && all_present labels_temp
      then set_labels labels_temp true g
      else set_labels [] false g
  | FileMissing => set_labels [] false g       (* except FileNotFoundError *)
  | FileBroken _ => set_labels [] false g      (* except Exception *)
  end.

(** Line 73 after lines 15-25: the state in which every request runs. *)
Definition initialized (endpoint topic : string) (file : csv_file) : globals :=
  load_labels_from_csv file (initial_globals endpoint topic).

(** *** What the rows say, read independently of the loop

    A row is a valid label row when it has two fields and the first parses
    to an index in 0..999. *)
Definition row_entry (row : list string) : option (nat * string) :=
  match row with
  | [c0; c1] =>
      match py_int c0 with
      | Some index =>
          if bool_decide (0 <= index < 1000) then Some (Z.to_nat index, c1) else None
      | None => None
      end
  | _ => None
  end.

(** The label of the first valid row for index [i]. *)
Fixpoint first_label (rows : list (list string)) (i : nat) : option string :=
  match rows with
  | [] => None
  | row :: rows' =>
      match row_entry row with
      | Some (j, label) => if bool_decide (j = i) then Some label else first_label rows' i
      | None => first_label rows' i
      end
  end.

(** The number of valid label rows that the loop counts: those whose index
    no earlier valid row has. *)
Fixpoint valid_rows (seen : list nat) (rows : list (list string)) : Z :=
  match rows with
  | [] => 0
  | row :: rows' =>
      match row_entry row with
      | Some (j, _) =>
          if bool_decide (j ∈ seen) then valid_rows seen rows'
          else 1 + valid_rows (j :: seen) rows'
      | None => valid_rows seen rows'
      end
  end.

(** The valid label rows that the loader counted before it finished or was
    interrupted. *)
Definition loaded_rows (file : csv_file) : Z :=
  match file with
  | FileMissing => 0
  | FileBroken rows | FileRows rows => valid_rows [] rows
  end.

End Loader.

(** Number of filled slots of a table. *)
Fixpoint filled (l : list (option string)) : nat :=
  match l with
  | [] => 0
  | Some _ :: l' => S (filled l')
  | None :: l' => filled l'
  end.

(** ** The libraries the handlers call *)

(** One field per library call of the handlers. Every call may raise; the
    exception it raises carries its own text and traceback. *)
Record Runtime := {
  image : Type;
  (** [json.dumps] on the payloads that the handlers build and on the
      values that [json.loads] has decoded: it does not raise. *)
  json_dumps : value -> string;
  (** [json.dumps(event)] in the log statement that opens the handlers of
      [lambda_function.py] (line 94) and of [copy 2] (line 33). The event
      is as the caller delivers it: the encoder raises on one that is
      nested deeper than it can follow. *)
  dumps_event : value -> result string;
  json_loads : string -> result value;
  (** [base64.b64decode], on whatever [event_data.get] returned. *)
  b64decode : value -> result (list Byte.byte);
  (** [Image.open(BytesIO(b)).convert('RGB')]. *)
  open_rgb : list Byte.byte -> result image;
  (** [image.resize((w, h))]. *)
  resize : image -> Z -> Z -> result image;
  (** [image.save(buffer, format="JPEG")] and [buffer.getvalue()]. *)
  save_jpeg : image -> result (list Byte.byte);
  (** [invoke_endpoint(EndpointName, ContentType, Body)], then
      [response['Body'].read().decode('utf-8')]. *)
  invoke_endpoint : string -> list Byte.byte -> result string;
  (** [round(x, 4)] on a float. *)
  round4 : spec_float -> spec_float;
  (** [boto3.client('runtime.sagemaker')] when the handler itself creates
      the client (lamba_function/src, line 20). *)
  new_client : result unit;
  (** The exception object of a failing interpreter operation. *)
  builtin_error : builtin_failure -> exn;
  (** [traceback.format_exc()] for an exception that the handler raises
      itself with the given message. *)
  own_traceback : string -> string
}.

(** ** The handler's effects *)

(** A call of [iot_data_client.publish(topic, qos, payload)]. *)
Record mqtt_message := Mqtt {
  topic : string;
  qos : Z;
  payload : string
}.

(** A running process: its globals and the publish calls made so far, the
    latest first. *)
Record world := World {
  mem : globals;
  outbox : list mqtt_message
}.

(** Code that reads and writes the process state. *)
Definition M (A : Type) : Type := world -> A * world.

#[export] Instance M_ret : MRet M := fun _ a w => (a, w).
#[export] Instance M_bind : MBind M := fun _ _ f c w =>
  let '(a, w') := c w in f a w'.

Definition read_globals : M globals := fun w => (mem w, w).

(** The call of the broker client. Whether it succeeds or raises makes no
    difference to the caller (lines 84-90), so only the call is recorded. *)
Definition iot_publish (msg : mqtt_message) : M unit :=
  fun w => (tt, World (mem w) (msg :: outbox w)).

Definition nonempty (s : string) : bool := negb (String.eqb s "").

Section Handler.

Variable rt : Runtime.

(** An exception raised by a [raise] statement of the handler. *)
Definition raise_own (msg : string) : exn := Exn msg (own_traceback rt msg).

(** *** [publish_response], lines 76-90 *)
Definition publish_response (payload_dict : value) : M unit :=
  g ← read_globals;
  if negb (nonempty (RESPONSE_TOPIC g)) then mret tt
  else if negb (iot_data_client g) then mret tt
  else iot_publish (Mqtt (RESPONSE_TOPIC g) 1 (json_dumps rt payload_dict)).

(** [{'statusCode': status, 'body': json.dumps(payload)}]. *)
Definition response (status : Z) (body_payload : value) : value :=
  VDict [("statusCode", VInt status); ("body", VStr (json_dumps rt body_payload))].

(** [{'error': message}]. *)
Definition error_payload (message : string) : value :=
  VDict [("error", VStr message)].

(** [r['statusCode']] of a returned object. *)
Definition statusCode_of (r : value) : option Z :=
  match r with
  | VDict d =>
      match dict_get d "statusCode" with
      | Some (VInt status) => Some status
      | _ => None
      end
  | _ => None
  end.

(** *** Stage 1, lines 109-112 *)
Definition extract_image_data (event : value) : result value :=
  event_data ← match event with
               | VStr s => json_loads rt s
               | _ => Ok event
               end;
  match event_data with
  | VDict d =>
      let image_b64 := default VNone (dict_get d "image_data") in
      if truthy image_b64 then Ok image_b64
      else Raised (raise_own "Missing 'image_data' in event data")
  | _ => Raised (builtin_error rt (NoGetAttribute event_data))
  end.

(** *** Stage 3, lines 130-134 *)
Definition preprocess (image_bytes : list Byte.byte) : result (list Byte.byte) :=
  im ← open_rgb rt image_bytes;
  im' ← resize rt im 224 224;
  save_jpeg rt im'.

(** *** Stage 5, lines 179-197 *)

(** [max(l)] on a list of numbers. *)
Definition py_max (l : list number) : result number :=
  match l with
  | [] => Raised (builtin_error rt MaxOfEmpty)
  | first :: rest => Ok (max_from first rest)
  end.

(** [l.index(x)]. *)
Definition py_index (l : list number) (x : number) : result nat :=
  match index_from x l 0 with
  | Some i => Ok i
  | None => Raised (builtin_error rt NotInList)
  end.

(** The format [f"{x:.4f}"] of line 184: it raises on an int that is too
    large for a float. *)
Definition format_4f (x : number) : result unit :=
  match x with
  | NInt z => if int_fits_float z then Ok tt
              else Raised (builtin_error rt (FormatOverflow z))
  | _ => Ok tt
  end.

(** [round(x, 4)]: an int or a bool gives an int, a float a float. *)
Definition py_round4 (x : number) : value :=
  match x with
  | NBool b => VInt (if b then 1 else 0)
  | NInt z => VInt z
  | NFloat f => VFloat (round4 rt f)
  end.

Definition label_value (label : option string) : value :=
  match label with
  | Some s => VStr s
  | None => VNone
  end.

(** Lines 179-197 on the list under ['probabilities']: the output payload.
    A list that holds a value that is no number raises in [max] or in the
    format of line 184. *)
Definition map_probabilities (labels : list (option string)) (l : list value)
  : result value :=
  match as_numbers l with
  | None => Raised (builtin_error rt (NotNumbers l))
  | Some sagemaker_probabilities =>
      max_prob ← py_max sagemaker_probabilities;
      predicted_index ← py_index sagemaker_probabilities max_prob;
      _ ← format_4f max_prob;
      let predicted_label :=
        match labels !! predicted_index with
        | Some label => label_value label
        | None => VStr "Error: Label index out of bounds or mapping failed"
        end in
      Ok (VDict [("prediction", predicted_label);
                 ("confidence", py_round4 max_prob)])
  end.

Definition unexpected_format_message : string :=
  "Error: Unexpected SageMaker response format. Expected a JSON object with a 'probabilities' key containing a list.".

(** *** Stages 4 to 6, the body of the [try] of lines 143-209

    The result is the status and the payload that the handler publishes
    and returns, or the exception that reaches line 211. *)
Definition infer (g : globals) (processed_image : list Byte.byte)
  : result (Z * value) :=
  sagemaker_result_str ← invoke_endpoint rt (SAGEMAKER_ENDPOINT_NAME g) processed_image;
  sagemaker_parsed_data ← json_loads rt sagemaker_result_str;
  match sagemaker_parsed_data with
  | VDict d =>
      match dict_get d "probabilities" with
      | Some sagemaker_probabilities =>
          match sagemaker_probabilities with
          | VList l =>
              output_payload ← map_probabilities (IMAGENET_LABELS g) l;
              Ok (200, output_payload)
          | VStr _ | VDict _ =>              (* line 166 *)
              Raised (raise_own ("Value under 'probabilities' key is not a list, type: "
                                 ++ type_repr sagemaker_probabilities))
          | _ =>                              (* [len] of line 161 *)
              Raised (builtin_error rt (NoLen sagemaker_probabilities))
          end
      | None => Ok (502, error_payload unexpected_format_message)
      end
  | _ => Ok (502, error_payload unexpected_format_message)
  end.

Definition labels_not_loaded_message : string :=
  "Error: ImageNet labels could not be loaded from the local CSV file during initialization. Cannot map probabilities to labels.".

(** *** [lambda_handler], lines 93-218

    The result is the object returned, or the exception that leaves the
    handler: the log statement of line 94 stands outside every [try]. *)
Definition lambda_handler (event : value) : M (result value) :=
  match dumps_event rt event with
  | Raised e => mret (Raised e)                       (* line 94 *)
  | Ok _ =>
  g ← read_globals;
  if negb (LABELS_LOADED_SUCCESSFULLY g) then
    let error_payload_dict := error_payload labels_not_loaded_message in
    _ ← publish_response error_payload_dict;
    mret (Ok (response 500 error_payload_dict))
  else if negb (nonempty (SAGEMAKER_ENDPOINT_NAME g)) then
    mret (Ok (response 500
                (error_payload "Error: SAGEMAKER_ENDPOINT_NAME configuration missing.")))
  else
  match extract_image_data event with
  | Raised e =>
      let error_payload_dict := error_payload ("Error parsing event data: " ++ exn_str e) in
      _ ← publish_response error_payload_dict;
      mret (Ok (response 400 error_payload_dict))
  | Ok image_b64 =>
  match b64decode rt image_b64 with
  | Raised e =>
      let error_payload_dict := error_payload ("Error decoding base64 image: " ++ exn_str e) in
      _ ← publish_response error_payload_dict;
      mret (Ok (response 400 error_payload_dict))
  | Ok image_bytes =>
  match preprocess image_bytes with
  | Raised e =>
      let error_payload_dict := error_payload ("Image preprocessing failed: " ++ exn_str e) in
      _ ← publish_response error_payload_dict;
      mret (Ok (response 500 error_payload_dict))
  | Ok processed_image =>
  match infer g processed_image with
  | Ok (status, output_payload) =>
      _ ← publish_response output_payload;
      mret (Ok (response status output_payload))
  | Raised e =>
      let error_payload_dict :=
        VDict [("error", VStr ("Unhandled exception during SageMaker interaction or result processing: "
                               ++ exn_str e));
               ("traceback", VStr (exn_traceback e))] in
      _ ← publish_response error_payload_dict;
      mret (Ok (response 500 error_payload_dict))
  end end end end
  end.

End Handler.

(** ** The earlier handler of [lambda_function copy 2.py] *)

Module Copy2.

(** Lines 15-16: both are constants of the module. *)
Definition SAGEMAKER_ENDPOINT_NAME : string :=
  "jumpstart-dft-mobilenet-v2-100-224-20250423-113843".
Definition RESPONSE_TOPIC : string := "device/image/response".

Section Handler.

Variable rt : Runtime.

(** Lines 140-153. *)
Definition publish_response (payload_dict : value) : M unit :=
  iot_publish (Mqtt RESPONSE_TOPIC 1 (json_dumps rt payload_dict)).

(** Lines 23-137. The log statement of line 33 stands outside every
    [try], as in [lambda_function.py]. *)
Definition lambda_handler (event : value) : M (result value) :=
  match dumps_event rt event with
  | Raised e => mret (Raised e)                       (* line 33 *)
  | Ok _ =>
  if negb (nonempty SAGEMAKER_ENDPOINT_NAME) then
    mret (Ok (response rt 500
                (error_payload "Error: SAGEMAKER_ENDPOINT_NAME environment variable not set.")))
  else if negb (nonempty RESPONSE_TOPIC) then
    mret (Ok (response rt 500
                (error_payload "Error: RESPONSE_TOPIC environment variable not set.")))
  else
  match extract_image_data rt event with
  | Raised e =>
      let error_payload_dict := error_payload ("Error parsing event data: " ++ exn_str e) in
      _ ← publish_response error_payload_dict;
      mret (Ok (response rt 400 error_payload_dict))
  | Ok image_b64 =>
  match b64decode rt image_b64 with
  | Raised e =>
      let error_payload_dict := error_payload ("Error decoding base64 image: " ++ exn_str e) in
      _ ← publish_response error_payload_dict;
      mret (Ok (response rt 400 error_payload_dict))
  | Ok image_bytes =>
  match preprocess rt image_bytes with
  | Raised e =>
      let error_payload_dict := error_payload ("Image preprocessing failed: " ++ exn_str e) in
      _ ← publish_response error_payload_dict;
      mret (Ok (response rt 500 error_payload_dict))
  | Ok processed_image =>
  match sagemaker_result_str ← invoke_endpoint rt SAGEMAKER_ENDPOINT_NAME processed_image;
        json_loads rt sagemaker_result_str with
  | Ok sagemaker_result =>
      _ ← publish_response sagemaker_result;
      mret (Ok (response rt 200 sagemaker_result))
  | Raised e =>
      let error_payload_dict :=
        error_payload ("Error invoking SageMaker endpoint or processing response: "
                       ++ exn_str e) in
      _ ← publish_response error_payload_dict;
      mret (Ok (response rt 500 error_payload_dict))
  end end end end
  end.

End Handler.

End Copy2.

(** ** The first handler of [lamba_function/src/lambda_function.py] *)

Module Src.

Section Handler.

Variable rt : Runtime.

(** Lines 24-26: [event.get] without the [isinstance] test. *)
Definition extract_image_data (event : value) : result value :=
  match event with
  | VDict d =>
      let image_b64 := default VNone (dict_get d "image_data") in
      if truthy image_b64 then Ok image_b64
      else Raised (raise_own rt "Missing 'image_data' in event")
  | _ => Raised (builtin_error rt (NoGetAttribute event))
  end.

(** Lines 7-75. The handler publishes nothing; an exception of line 20 is
    not caught. *)
Definition lambda_handler (event : value) : result value :=
  _ ← new_client rt;
  Ok
  match extract_image_data event with
  | Raised e => response rt 400 (error_payload ("Error parsing event data: " ++ exn_str e))
  | Ok image_b64 =>
  match b64decode rt image_b64 with
  | Raised e => response rt 400 (error_payload ("Error decoding image: " ++ exn_str e))
  | Ok image_bytes =>
  match preprocess rt image_bytes with
  | Raised e => response rt 500 (error_payload ("Image preprocessing failed: " ++ exn_str e))
  | Ok processed_image =>
  match body ← invoke_endpoint rt "jumpstart-dft-mobilenet-v2-100-224-20250413-142241"
                 processed_image;
        json_loads rt body with
  | Raised e =>
      response rt 500 (error_payload ("Error invoking SageMaker endpoint: " ++ exn_str e))
  | Ok result =>
      VDict [("statusCode", VInt 200);
             ("body", VStr (json_dumps rt result));
             ("response", result)]
  end end end end.

End Handler.

End Src.

(** ** Requests served by one process *)

(** The process serves its requests one after the other, each in the state
    the previous one left. *)
Definition serve (rt : Runtime) (events : list value) (w : world) : world :=
  fold_left (fun w event => snd (lambda_handler rt event w)) events w.

(** ** The order of numbers, stated on exact values *)

Definition x_le (a b : xreal) : Prop :=
  match a, b with
  | XNaN, _ | _, XNaN => False
  | XNegInf, _ => True
  | _, XPosInf => True
  | XFin p, XFin q => (p <= q)%Q
  | _, _ => False
  end.

Definition x_lt (a b : xreal) : Prop :=
  match a, b with
  | XNaN, _ | _, XNaN => False
  | XNegInf, XNegInf => False
  | XNegInf, _ => True
  | XPosInf, _ => False
  | XFin _, XPosInf => True
  | XFin p, XFin q => (p < q)%Q
  | XFin _, XNegInf => False
  end.

Definition num_le (a b : number) : Prop := x_le (number_value a) (number_value b).
Definition num_lt (a b : number) : Prop := x_lt (number_value a) (number_value b).

(** A score that [max] orders and line 184 formats: no NaN, and no int
    beyond the range of floats. Every probability is one. *)
Definition score_ok (n : number) : bool :=
  negb (is_nan (number_value n))
  && match n with NInt z => int_fits_float z | _ => true end.

Definition probability (n : number) : Prop :=
  exists q, number_value n = XFin q /\ (0 <= q <= 1)%Q.

(** ** The device publisher [pub2.py] *)

Module Pub2.

(** Lines 20-21, the two flags shared with the network thread. *)
Record flags := Flags {
  connection_established : bool;
  connection_error_code : option Z
}.

(** Lines 24-42. *)
Definition on_connect (rc : Z) (f : flags) : flags :=
  if rc =? 0 then Flags true None else Flags false (Some rc).

(** The program points of the main thread from line 114 on. *)
Inductive point :=
| AtStart                   (* lines 114-116 *)
| LoopTest                  (* line 118, [while not connection_established] *)
| Sleeping                  (* line 119 *)
| ErrorTest                 (* line 120 *)
| TimeoutTest               (* line 124 *)
| Confirmed                 (* lines 129-133, after the wait, before the [try] *)
| Publishing                (* line 135, the top of the publishing loop *)
| Counted                   (* lines 138-147, after the increment of line 136 *)
| Published                 (* lines 149-161, after the publish call of line 148 *)
| Exited (status : Z)       (* the process has ended with this status *)
| Aborted.                  (* ended by an interrupt that nothing catches *)

(** A call of [mqtt_client.publish]: the message number and the timestamp
    of its payload. *)
Record message := Message {
  number : Z;
  timestamp : Q
}.

Record state := State {
  shared : flags;
  at_point : point;
  connection_start_time : Q;
  message_count : Z;
  published : list message        (* the latest first *)
}.

(** What happens next: the network thread started at line 111 calls
    [on_connect], or the main thread runs to its next program point
    ([now] is the value of [time.time()], where it reads the clock), or it
    receives a [KeyboardInterrupt], or a library call of the publishing
    loop raises an [Exception]. A reading of the clock is the rational
    number that the float denotes, and the difference of line 124 is taken
    exactly, without the rounding of the float subtraction. *)
Inductive event :=
| OnConnect (rc : Z)
| Tick (now : Q)
| Interrupt
| Fault.

Definition connection_timeout : Q := 30.

Definition running (p : point) : bool :=
  match p with
  | Exited _ | Aborted => false
  | _ => true
  end.

Definition goto (p : point) (s : state) : state :=
  State (shared s) p (connection_start_time s) (message_count s) (published s).

(** One step of the main thread, lines 114-161. An iteration of the
    publishing loop takes three: the increment of the counter, the publish
    call with the payload built for it, and the wait for the
    acknowledgement with the pause. *)
Definition main_step (now : Q) (s : state) : state :=
  match at_point s with
  | AtStart => State (shared s) LoopTest now (message_count s) (published s)
  | LoopTest =>
      if connection_established (shared s) then goto Confirmed s
      else goto Sleeping s
  | Sleeping => goto ErrorTest s
  | ErrorTest =>
      match connection_error_code (shared s) with
      | Some _ => goto (Exited 1) s                  (* lines 121-123 *)
      | None => goto TimeoutTest s
      end
  | TimeoutTest =>
      match Qcompare (now - connection_start_time s) connection_timeout with
      | Gt => goto (Exited 1) s                      (* lines 125-127 *)
      | _ => goto LoopTest s
      end
  | Confirmed =>                                     (* line 133 *)
      State (shared s) Publishing (connection_start_time s) 0 (published s)
  | Publishing =>                                    (* line 136 *)
      State (shared s) Counted (connection_start_time s) (message_count s + 1)
            (published s)
  | Counted =>                                       (* lines 138-148 *)
      State (shared s) Published (connection_start_time s) (message_count s)
            (Message (message_count s) now :: published s)
  | Published => goto Publishing s                   (* lines 149-161 *)
  | Exited _ | Aborted => s
  end.

(** The points inside the [try] of lines 134-161. *)
Definition in_loop (p : point) : bool :=
  match p with
  | Publishing | Counted | Published => true
  | _ => false
  end.

(** Lines 163-173: both handlers of the publishing loop end in the
    [finally] block and the end of the script. Outside the loop nothing
    catches an interrupt. *)
Definition step (s : state) (e : event) : state :=
  if running (at_point s) then
    match e with
    | OnConnect rc =>
        State (on_connect rc (shared s)) (at_point s) (connection_start_time s)
              (message_count s) (published s)
    | Tick now => main_step now s
    | Interrupt =>
        if in_loop (at_point s) then goto (Exited 0) s else goto Aborted s
    | Fault =>
        if in_loop (at_point s) then goto (Exited 0) s else s
    end
  else s.

(** The state when line 111 has started the network thread. *)
Definition initial : state := State (Flags false None) AtStart 0 0 [].

Definition run (s : state) (evs : list event) : state := fold_left step evs s.

(** The points of the wait for the connection, lines 114-127. *)
Definition waiting (p : point) : bool :=
  match p with
  | AtStart | LoopTest | Sleeping | ErrorTest | TimeoutTest => true
  | _ => false
  end.

End Pub2.

(** ** Sample inputs, used by the examples below *)

Module Demo.

(** Stands in for [int] on plain decimal numerals. *)
Definition demo_int (s : string) : option Z :=
  Z.of_int <$> DecimalString.NilZero.int_of_string s.

Definition numeral (i : nat) : string :=
  DecimalString.NilZero.string_of_uint (Nat.to_uint i).

(** A label file with one row [i,label_i] for every index below [n]. *)
Definition label_rows (n : nat) : list (list string) :=
  map (fun i => [numeral i; "label_" ++ numeral i]) (seq 0 n).

Definition imagenet_csv : csv_file := FileRows (label_rows 1000).

(** The floats 0.0, 0.5 and 0.9. *)
Definition f_zero : spec_float := S754_zero false.
Definition f_half : spec_float := S754_finite false 4503599627370496 (-53).
Definition f_09 : spec_float := S754_finite false 8106479329266893 (-53).

(** A vector of 1000 scores whose maximum 0.9 stands at 7 and at 9. *)
Definition score_numbers : list number :=
  replicate 7 (NFloat f_zero) ++ [NFloat f_09; NFloat f_half; NFloat f_09]
  ++ replicate 990 (NFloat f_zero).

Definition scores_1000 : list value := map value_of_number score_numbers.

(** A vector of 1001 scores whose maximum 0.5 stands at index 1000. *)
Definition long_numbers : list number :=
  (replicate 1000 (NFloat f_zero) ++ [NFloat f_half])%list.

Definition long_scores : list value := map value_of_number long_numbers.

(** Stands in for [json.dumps]: it writes the keys of an object only, which
    is all that the examples read of a body. *)
Definition demo_dumps (v : value) : string :=
  match v with
  | VDict d => String.concat "," (keys d)
  | _ => "value"
  end.

(** The depth to which lists and dicts are nested in a value. *)
Fixpoint nesting (v : value) : nat :=
  match v with
  | VList l =>
      S ((fix deepest (l : list value) : nat :=
            match l with
            | [] => 0
            | x :: l' => Nat.max (nesting x) (deepest l')
            end) l)
  | VDict d =>
      S ((fix deepest (d : list (string * value)) : nat :=
            match d with
            | [] => 0
            | (_, x) :: d' => Nat.max (nesting x) (deepest d')
            end) d)
  | _ => 0
  end%nat.

(** Stands in for [json.dumps(event)] in the log statement: it gives up
    beyond 990 levels, about where the encoder of CPython does under the
    default recursion limit. *)
Definition demo_dumps_event (event : value) : result string :=
  if (nesting event <=? 990)%nat then Ok (demo_dumps event)
  else Raised (Exn "maximum recursion depth exceeded while encoding a JSON object"
                   "RecursionError").

(** The base64 text of the four bytes FF D8 FF DB, the start of a JPEG. *)
Definition jpeg_b64 : string := "/9j/2w==".

Definition jpeg_start : list Byte.byte := [Byte.xff; Byte.xd8; Byte.xff; Byte.xdb].

(** A runtime for the examples. It decodes [jpeg_b64] and takes every other
    text for one without base64 data, as [b64decode] does for ["!!!!"]; it
    opens the bytes that start a JPEG and refuses the others; the endpoint
    answers the text ["response"], which decodes to the value given. *)
Definition demo_runtime (sagemaker_parsed_data : value) : Runtime := {|
  image := Z * Z;
  json_dumps := demo_dumps;
  dumps_event := demo_dumps_event;
  json_loads := fun s =>
    if String.eqb s "response" then Ok sagemaker_parsed_data
    else Raised (Exn "Expecting value: line 1 column 1 (char 0)" "json.decoder.JSONDecodeError");
  b64decode := fun v =>
    match v with
    | VStr s => if String.eqb s jpeg_b64 then Ok jpeg_start else Ok []
    | _ => Raised (Exn "argument should be a bytes-like object or ASCII string" "TypeError")
    end;
  open_rgb := fun b =>
    match b with
    | Byte.xff :: Byte.xd8 :: _ => Ok (640, 480)
    | _ => Raised (Exn "cannot identify image file" "PIL.UnidentifiedImageError")
    end;
  resize := fun _ w h => Ok (w, h);
  save_jpeg := fun _ => Ok jpeg_start;
  invoke_endpoint := fun name _ =>
    if nonempty name then Ok "response"
    else Raised (Exn "Parameter validation failed" "botocore.exceptions.ParamValidationError");
  round4 := fun f => f;
  new_client := Ok tt;
  builtin_error := fun _ => Exn "builtin error" "Traceback (most recent call last)";
  own_traceback := fun _ => "Traceback (most recent call last)"
|}.

(** The process after its initialization with the sample label file. *)
Definition ready (endpoint response_topic : string) : world :=
  World (initialized demo_int endpoint response_topic imagenet_csv) [].

Definition jpeg_event : value := VDict [("image_data", VStr jpeg_b64)].

(** An event whose text holds no base64 data: it decodes to no bytes. *)
Definition corrupt_event : value := VDict [("image_data", VStr "!!!!")].

(** The endpoint answers the 1000 scores, one score, or none. *)
Definition rt_1000 : Runtime :=
  demo_runtime (VDict [("probabilities", VList scores_1000)]).
Definition rt_short : Runtime :=
  demo_runtime (VDict [("probabilities", VList [VFloat f_09])]).
Definition rt_empty : Runtime :=
  demo_runtime (VDict [("probabilities", VList [])]).

Definition w_ready : world := ready "endpoint" "device/image/response".

(** The endpoint name is the empty text. *)
Definition w_no_endpoint : world := ready "" "device/image/response".

(** The label file holds the rows of the indices 0 to 19 only. *)
Definition w_no_labels : world :=
  World (initialized demo_int "endpoint" "device/image/response"
           (FileRows (label_rows 20))) [].

(** The endpoint answers a list, a text event decodes to [jpeg_event], and
    the endpoint answers the one score 2^1024. *)
Definition rt_no_object : Runtime := demo_runtime (VList []).
Definition rt_text : Runtime := demo_runtime jpeg_event.
Definition rt_huge : Runtime :=
  demo_runtime (VDict [("probabilities", VList [VInt (2 ^ 1024)])]).

(** The endpoint answers the 1001 scores of [long_scores]. *)
Definition rt_long : Runtime :=
  demo_runtime (VDict [("probabilities", VList long_scores)]).

(** An event with its image, and beside it a list nested 1000 deep. *)
Definition deep_event : value :=
  VDict [("image_data", VStr jpeg_b64);
         ("extra", Nat.iter 1000 (fun v => VList [v]) VNone)].

(** What the examples observe of an image of the sample runtimes: its
    size is the pair itself, its mode is RGB, and the bytes of a JPEG file
    are those that begin with the marker FF D8. *)
Definition image_size (im : Z * Z) : Z * Z := im.
Definition image_mode (im : Z * Z) : string := "RGB".
Definition jpeg_file_of (file : list Byte.byte) (im : Z * Z) : Prop :=
  take 2 file = [Byte.xff; Byte.xd8].

(** The runtime [rt_1000] with a failing [boto3.client]. *)
Definition rt_no_client : Runtime := {|
  image := image rt_1000;
  json_dumps := json_dumps rt_1000;
  dumps_event := dumps_event rt_1000;
  json_loads := json_loads rt_1000;
  b64decode := b64decode rt_1000;
  open_rgb := open_rgb rt_1000;
  resize := resize rt_1000;
  save_jpeg := save_jpeg rt_1000;
  invoke_endpoint := invoke_endpoint rt_1000;
  round4 := round4 rt_1000;
  new_client := Raised (Exn "You must specify a region." "botocore.exceptions.NoRegionError");
  builtin_error := builtin_error rt_1000;
  own_traceback := own_traceback rt_1000
|}.

End Demo.

(** ** Readings of files, results and event lists *)

(** The indices of the valid label rows of a file, in the order of the
    rows. *)
Definition valid_indices (py_int : string -> option Z) (rows : list (list string))
  : list nat :=
  omap (fun row => fst <$> row_entry py_int row) rows.

(** Whether a call returned, rather than raised. *)
Definition returns {A : Type} (r : result A) : bool :=
  match r with
  | Ok _ => true
  | Raised _ => false
  end.

(** [r['body']] of a returned object. *)
Definition body_of (r : value) : option string :=
  match r with
  | VDict d =>
      match dict_get d "body" with
      | Some (VStr body) => Some body
      | _ => None
      end
  | _ => None
  end.

(** The status and the body of what a call of a handler returned; there
    is none when the call raised. *)
Definition returned_status (r : result value) : option Z :=
  match r with
  | Ok v => statusCode_of v
  | Raised _ => None
  end.

Definition returned_body (r : result value) : option string :=
  match r with
  | Ok v => body_of v
  | Raised _ => None
  end.

(** The steps of the main thread of [pub2.py] among the events. *)
Fixpoint main_steps (evs : list Pub2.event) : nat :=
  match evs with
  | [] => 0
  | Pub2.Tick _ :: evs' => S (main_steps evs')
  | _ :: evs' => main_steps evs'
  end.

(** The events without the connection callbacks. *)
Fixpoint without_callbacks (evs : list Pub2.event) : list Pub2.event :=
  match evs with
  | [] => []
  | Pub2.OnConnect _ :: evs' => without_callbacks evs'
  | e :: evs' => e :: without_callbacks evs'
  end.

(** How many steps of the main thread a point of the publishing loop lies
    after the last pause: the publish call is the third step of an
    iteration. *)
Definition loop_phase (p : Pub2.point) : nat :=
  match p with
  | Pub2.Publishing => 1
  | Pub2.Counted => 2
  | _ => 0
  end.

(** No interrupt and no exception among the events. *)
Definition uninterrupted (evs : list Pub2.event) : bool :=
  forallb (fun e => match e with
                    | Pub2.Interrupt | Pub2.Fault => false
                    | _ => true
                    end) evs.

(** The message numbers 1 to [n], the latest first. *)
Definition numbers_down (n : nat) : list Z := rev (map Z.of_nat (seq 1 n)).

(** No callback with return code 0 and no interrupt among the events. *)
Definition unconfirmed (evs : list Pub2.event) : bool :=
  forallb (fun e => match e with
                    | Pub2.OnConnect rc => negb (rc =? 0)
                    | Pub2.Interrupt => false
                    | _ => true
                    end) evs.

(** Every reading of the clock among the events is more than 30 seconds
    after [start]. *)
Definition all_late (start : Q) (evs : list Pub2.event) : bool :=
  forallb (fun e => match e with
                    | Pub2.Tick now =>
                        match Qcompare (now - start) Pub2.connection_timeout with
                        | Gt => true
                        | _ => false
                        end
                    | _ => true
                    end) evs.

(** The steps that the main thread takes at most from a point of the wait
    to its exit with status 1: when an error code is set and stays set,
    and when the flag stays down and every reading of the clock is late. *)
Definition steps_to_error_exit (p : Pub2.point) : nat :=
  match p with
  | Pub2.AtStart | Pub2.TimeoutTest => 4
  | Pub2.LoopTest => 3
  | Pub2.Sleeping => 2
  | Pub2.ErrorTest => 1
  | _ => 0
  end.

Definition steps_to_timeout_exit (p : Pub2.point) : nat :=
  match p with
  | Pub2.LoopTest => 4
  | Pub2.Sleeping => 3
  | Pub2.ErrorTest => 2
  | Pub2.TimeoutTest => 1
  | _ => 0
  end.

(** * Properties *)

(** Unfolding of the two monads. *)
Ltac run_M :=
  unfold mbind, M_bind, mret, M_ret, read_globals, iot_publish; cbn.

Ltac run_result :=
  unfold mbind, result_bind, mret, result_ret; cbn.

(** ** The label loader *)

Section LoaderFacts.

Variable py_int : string -> option Z.

Local Abbreviation process_row := (process_row py_int).
Local Abbreviation row_entry := (row_entry py_int).
Local Abbreviation first_label := (first_label py_int).
Local Abbreviation valid_rows := (valid_rows py_int).

(** What one row does to the table and the counter, in terms of
    [row_entry]. *)
Lemma process_row_entry labels_temp count row :
  process_row (labels_temp, count) row =
  match row_entry row with
  | Some (j, label) =>
      match labels_temp !! j with
      | Some None => (<[j := Some label]> labels_temp, count + 1)
      | _ => (labels_temp, count)
      end
  | None => (labels_temp, count)
  end.
Proof.
  unfold process_row, row_entry.
  destruct row as [|c0 [|c1 [|c2 row]]]; try reflexivity.
  destruct (py_int c0) as [index|]; [|reflexivity].
  destruct (bool_decide (0 <= index < 1000)); [|reflexivity].
  destruct (labels_temp !! Z.to_nat index) as [[s|]|]; reflexivity.
Qed.

Lemma row_entry_bound row j label :
  row_entry row = Some (j, label) -> (j < 1000)%nat.
Proof.
  unfold row_entry.
  destruct row as [|c0 [|c1 [|c2 row]]]; try discriminate.
  destruct (py_int c0) as [index|]; [|discriminate].
  case_bool_decide; [|discriminate].
  intros [= <- _]. lia.
Qed.

Lemma filled_le (l : list (option string)) : (filled l <= length l)%nat.
Proof. induction l as [|[s|] l IH]; simpl; lia. Qed.

Lemma filled_insert (l : list (option string)) j label :
  l !! j = Some None -> filled (<[j := Some label]> l) = S (filled l).
Proof.
  revert j. induction l as [|x l IH]; intros [|j] H; try discriminate.
  - simpl in H. injection H as ->. reflexivity.
  - simpl in H. simpl. destruct x; rewrite (IH _ H); reflexivity.
Qed.

Lemma filled_full (l : list (option string)) i :
  filled l = length l -> (i < length l)%nat -> exists s, l !! i = Some (Some s).
Proof.
  revert i. induction l as [|x l IH]; intros i Hf Hi; simpl in *; [lia|].
  destruct x as [s|].
  - destruct i as [|i]; [eauto|]. apply IH; lia.
  - pose proof (filled_le l). lia.
Qed.

Lemma all_present_filled (l : list (option string)) :
  all_present l = true -> filled l = length l.
Proof.
  induction l as [|[s|] l IH]; simpl; intros H; try discriminate; auto.
Qed.

Lemma filled_all_present (l : list (option string)) :
  filled l = length l -> all_present l = true.
Proof.
  induction l as [|[s|] l IH]; simpl; intros H; auto.
  pose proof (filled_le l). lia.
Qed.

(** The loop keeps the length of the table, counts its filled slots, and
    leaves in every slot the label of the first valid row for it. *)
Lemma loop_invariant rows labels_temp count :
  let st := fold_left process_row rows (labels_temp, count) in
  length st.1 = length labels_temp
  /\ st.2 - Z.of_nat (filled st.1) = count - Z.of_nat (filled labels_temp)
  /\ forall i,
       st.1 !! i =
       match labels_temp !! i with
       | Some None => Some (first_label rows i)
       | other => other
       end.
Proof.
  revert labels_temp count.
  induction rows as [|row rows IH]; intros labels_temp count;
    cbn [fold_left first_label].
  - cbn. repeat split; intros; try lia. destruct (labels_temp !! i) as [[s|]|]; reflexivity.
  - rewrite process_row_entry.
    destruct (row_entry row) as [[j label]|] eqn:Hrow; [|apply IH].
    destruct (labels_temp !! j) as [[s|]|] eqn:Hj.
    + destruct (IH labels_temp count) as (Hlen & Hcount & Hlook).
      repeat split; try assumption. intros i. rewrite Hlook.
      destruct (labels_temp !! i) as [[t|]|] eqn:Hi; try reflexivity.
      case_bool_decide; [congruence|reflexivity].
    + destruct (IH (<[j := Some label]> labels_temp) (count + 1))
        as (Hlen & Hcount & Hlook).
      rewrite length_insert in Hlen. rewrite (filled_insert _ _ _ Hj) in Hcount.
      repeat split; try assumption; try lia. intros i. rewrite Hlook.
      destruct (decide (j = i)) as [<-|Hne].
      * rewrite list_lookup_insert_eq by (eapply lookup_lt_Some; eassumption).
        rewrite Hj. rewrite bool_decide_eq_true_2 by reflexivity. reflexivity.
      * rewrite list_lookup_insert_ne by assumption.
        rewrite bool_decide_eq_false_2 by assumption. reflexivity.
    + destruct (IH labels_temp count) as (Hlen & Hcount & Hlook).
      repeat split; try assumption. intros i. rewrite Hlook.
      destruct (labels_temp !! i) as [[t|]|] eqn:Hi; try reflexivity.
      case_bool_decide; [congruence|reflexivity].
Qed.

(** The counter adds one for every valid row whose index is new. *)
Lemma loop_count rows labels_temp count seen :
  length labels_temp = 1000%nat ->
  (forall j, j ∈ seen <-> exists s, labels_temp !! j = Some (Some s)) ->
  (fold_left process_row rows (labels_temp, count)).2 = count + valid_rows seen rows.
Proof.
  revert labels_temp count seen.
  induction rows as [|row rows IH]; intros labels_temp count seen Hlen Hseen;
    cbn [fold_left valid_rows].
  - cbn. lia.
  - rewrite process_row_entry.
    destruct (row_entry row) as [[j label]|] eqn:Hrow; [|auto].
    pose proof (row_entry_bound _ _ _ Hrow) as Hj.
    destruct (labels_temp !! j) as [[s|]|] eqn:Hlook.
    + rewrite bool_decide_eq_true_2 by (apply Hseen; eauto). auto.
    + rewrite bool_decide_eq_false_2
        by (intros Hin; apply Hseen in Hin as [s Hs]; congruence).
      rewrite (IH _ _ (j :: seen)).
      * lia.
      * rewrite length_insert. assumption.
      * intros k. rewrite elem_of_cons, Hseen.
        destruct (decide (k = j)) as [->|Hne].
        -- rewrite list_lookup_insert_eq by lia. split; eauto.
        -- rewrite list_lookup_insert_ne by congruence. split; [intros [?|?]|]; eauto; done.
    + apply lookup_ge_None in Hlook. lia.
Qed.

Lemma read_rows_spec rows :
  let st := read_rows py_int rows in
  length st.1 = 1000%nat
  /\ st.2 = Z.of_nat (filled st.1)
  /\ st.2 = valid_rows [] rows
  /\ forall i, (i < 1000)%nat -> st.1 !! i = Some (first_label rows i).
Proof.
  unfold read_rows.
  destruct (loop_invariant rows (replicate 1000 None) 0) as (Hlen & Hcount & Hlook).
  rewrite length_replicate in Hlen.
  assert (Hfilled : forall n, filled (replicate n None) = 0%nat)
    by (induction n; simpl; auto).
  rewrite Hfilled in Hcount.
  repeat split.
  - exact Hlen.
  - lia.
  - rewrite (loop_count rows _ 0 []); [lia|apply length_replicate|].
    intros j. split; [intros H; inversion H|].
    intros [s Hs]. apply lookup_replicate in Hs as [? _]. discriminate.
  - intros i Hi. rewrite Hlook. rewrite lookup_replicate_2 by assumption. reflexivity.
Qed.

(** A successful load: the file was read to its end, it held a valid row
    for each of the 1000 indices, and every slot holds the label of the
    first of them. *)
Lemma load_success file g :
  LABELS_LOADED_SUCCESSFULLY (load_labels_from_csv py_int file g) = true ->
  exists rows,
    file = FileRows rows
    /\ valid_rows [] rows = 1000
    /\ length (IMAGENET_LABELS (load_labels_from_csv py_int file g)) = 1000%nat
    /\ forall i, (i < 1000)%nat ->
         exists label,
           first_label rows i = Some label
           /\ IMAGENET_LABELS (load_labels_from_csv py_int file g) !! i = Some (Some label).
Proof.
  destruct file as [|rows|rows]; cbn; try discriminate.
  pose proof (read_rows_spec rows) as Hspec.
  destruct (read_rows py_int rows) as [labels_temp count] eqn:Hread.
  cbn in Hspec. destruct Hspec as (Hlen & Hfilled & Hvalid & Hlook).
  destruct ((count =? 1000) && all_present labels_temp) eqn:Htest; cbn; [|discriminate].
  intros _. apply andb_true_iff in Htest as [Hcount Hall].
  apply Z.eqb_eq in Hcount.
  exists rows. repeat split; try congruence.
  intros i Hi.
  destruct (filled_full labels_temp i) as [label Hlabel];
    [apply all_present_filled; assumption|lia|].
  exists label. split; [|assumption].
  rewrite Hlook in Hlabel by assumption. congruence.
Qed.

(** A load that does not succeed leaves the empty table. *)
Lemma load_failure file g :
  LABELS_LOADED_SUCCESSFULLY (load_labels_from_csv py_int file g) = false ->
  load_labels_from_csv py_int file g = set_labels [] false g.
Proof.
  destruct file as [|rows|rows]; cbn; try reflexivity.
  destruct (read_rows py_int rows) as [labels_temp count].
  destruct ((count =? 1000) && all_present labels_temp); cbn; [discriminate|reflexivity].
Qed.

(** The flag follows the number of valid rows. *)
Lemma load_flag rows g :
  LABELS_LOADED_SUCCESSFULLY (load_labels_from_csv py_int (FileRows rows) g)
  = (valid_rows [] rows =? 1000).
Proof.
  cbn. pose proof (read_rows_spec rows) as Hspec.
  destruct (read_rows py_int rows) as [labels_temp count].
  cbn in Hspec. destruct Hspec as (Hlen & Hfilled & Hvalid & _).
  rewrite <- Hvalid.
  destruct (count =? 1000) eqn:Hcount; cbn; [|reflexivity].
  apply Z.eqb_eq in Hcount.
  rewrite filled_all_present by lia. reflexivity.
Qed.

Lemma load_few_rows file g :
  loaded_rows py_int file < 1000 ->
  LABELS_LOADED_SUCCESSFULLY (load_labels_from_csv py_int file g) = false.
Proof.
  destruct file as [|rows|rows]; try reflexivity.
  intros H. rewrite load_flag. cbn in H. apply Z.eqb_neq. lia.
Qed.

(** C10. Label loading is all or nothing: after [load_labels_from_csv],
    for every file contents and for a missing file, either the flag is
    true, the table has 1000 entries, none of them [None], each the label
    of the first valid row for its index (so that duplicates, malformed and
    out-of-range rows change nothing), and the file held exactly 1000
    counted rows; or the flag is false and the table is empty. *)
Theorem load_labels_all_or_nothing (file : csv_file) (g : globals) :
  let g' := load_labels_from_csv py_int file g in
  (LABELS_LOADED_SUCCESSFULLY g' = true
   /\ length (IMAGENET_LABELS g') = 1000%nat
   /\ filled (IMAGENET_LABELS g') = 1000%nat
   /\ exists rows,
        file = FileRows rows
        /\ valid_rows [] rows = 1000
        /\ forall i, (i < 1000)%nat ->
             exists label,
               first_label rows i = Some label
               /\ IMAGENET_LABELS g' !! i = Some (Some label))
  \/ (LABELS_LOADED_SUCCESSFULLY g' = false /\ IMAGENET_LABELS g' = []).
Proof.
  intros g'. destruct (LABELS_LOADED_SUCCESSFULLY g') eqn:Hflag.
  - left. destruct (load_success file g Hflag) as (rows & -> & Hvalid & Hlen & Hlook).
    fold g' in Hlen, Hlook.
    assert (Hfilled : filled (IMAGENET_LABELS g') = 1000%nat).
    { subst g'. revert Hflag Hlen Hlook. cbn.
      pose proof (read_rows_spec rows) as Hspec.
      destruct (read_rows py_int rows) as [labels_temp count].
      cbn in Hspec. destruct Hspec as (_ & Hfilled & _ & _).
      destruct ((count =? 1000) && all_present labels_temp) eqn:Htest; cbn;
        [|discriminate].
      apply andb_true_iff in Htest as [Hcount _]. apply Z.eqb_eq in Hcount.
      intros _ _ _. lia. }
    repeat split; try assumption. exists rows. repeat split; assumption.
  - right. split; [reflexivity|].
    subst g'. rewrite load_failure by assumption. reflexivity.
Qed.

End LoaderFacts.

(** ** The order of numbers *)

Lemma x_gt_lt a b : x_gt a b = true -> x_lt b a.
Proof.
  destruct a as [| |p|], b as [| |q|]; cbn; try discriminate; auto.
  destruct (Qcompare p q) eqn:H; try discriminate. intros _.
  apply Qgt_alt in H. exact H.
Qed.

Lemma x_ngt_le a b :
  is_nan a = false -> is_nan b = false -> x_gt a b = false -> x_le a b.
Proof.
  destruct a as [| |p|], b as [| |q|]; cbn; try discriminate; auto.
  intros _ _ H. apply Qle_alt. intros Hgt. rewrite Hgt in H. discriminate.
Qed.

Lemma x_le_refl a : is_nan a = false -> x_le a a.
Proof. destruct a; cbn; try discriminate; auto. intros _. apply Qle_refl. Qed.

Lemma x_le_trans a b c : x_le a b -> x_le b c -> x_le a c.
Proof.
  destruct a as [| |p|], b as [| |q|], c as [| |r|]; cbn; try tauto.
  apply Qle_trans.
Qed.

Lemma x_lt_le_trans a b c : x_lt a b -> x_le b c -> x_lt a c.
Proof.
  destruct a as [| |p|], b as [| |q|], c as [| |r|]; cbn; try tauto.
  apply Qlt_le_trans.
Qed.

Lemma x_le_lt_trans a b c : x_le a b -> x_lt b c -> x_lt a c.
Proof.
  destruct a as [| |p|], b as [| |q|], c as [| |r|]; cbn; try tauto.
  apply Qle_lt_trans.
Qed.

Lemma x_lt_le a b : x_lt a b -> x_le a b.
Proof.
  destruct a as [| |p|], b as [| |q|]; cbn; try tauto. apply Qlt_le_weak.
Qed.

Lemma x_lt_not_eq a b : x_lt a b -> x_eq a b = false.
Proof.
  destruct a as [| |p|], b as [| |q|]; cbn; try tauto.
  intros H. destruct (Qeq_bool p q) eqn:Heq; [|reflexivity].
  apply Qeq_bool_iff in Heq. apply Qlt_not_eq in H. contradiction.
Qed.

Lemma x_lt_not_nan a b : x_lt a b -> is_nan a = false /\ is_nan b = false.
Proof. destruct a, b; cbn; tauto. Qed.

Lemma x_eq_refl a : is_nan a = false -> x_eq a a = true.
Proof.
  destruct a; cbn; try discriminate; auto. intros _. apply Qeq_bool_iff. reflexivity.
Qed.

Lemma score_ok_not_nan n : score_ok n = true -> is_nan (number_value n) = false.
Proof.
  unfold score_ok. intros H. apply andb_true_iff in H as [H _].
  apply negb_true_iff in H. exact H.
Qed.

Lemma probability_score_ok n : probability n -> score_ok n = true.
Proof.
  intros (q & Hq & Hlo & Hhi). unfold score_ok. rewrite Hq. cbn.
  destruct n as [b|z|f]; try reflexivity.
  cbn in Hq. injection Hq as <-.
  unfold int_fits_float. apply Z.ltb_lt.
  unfold Qle in Hlo, Hhi. cbn in Hlo, Hhi.
  assert (0 <= z <= 1) by lia.
  assert (2 < 2 ^ 1024 - 2 ^ 970).
  { replace (2 ^ 1024) with (2 ^ 970 * 2 ^ 54) by (rewrite <- Z.pow_add_r; [reflexivity|lia|lia]).
    assert (0 < 2 ^ 970) by (apply Z.pow_pos_nonneg; lia).
    assert (4 <= 2 ^ 54) by (change (2 ^ 54) with 18014398509481984; lia).
    nia. }
  lia.
Qed.

(** [max] returns the element at the first position of the greatest
    value. *)
Lemma max_from_first rest : forall maxitem,
  Forall (fun n => score_ok n = true) (maxitem :: rest) ->
  exists i,
    (maxitem :: rest) !! i = Some (max_from maxitem rest)
    /\ (forall j y, (maxitem :: rest) !! j = Some y -> num_le y (max_from maxitem rest))
    /\ (forall j y, (j < i)%nat -> (maxitem :: rest) !! j = Some y ->
          num_lt y (max_from maxitem rest)).
Proof.
  induction rest as [|item rest IH]; intros maxitem Hok.
  - exists 0%nat. cbn. repeat split.
    + intros [|j] y H; [|discriminate]. injection H as <-.
      apply x_le_refl, score_ok_not_nan. inversion Hok; assumption.
    + intros j y Hj. lia.
  - inversion Hok as [|? ? Hm Hrest]; subst.
    inversion Hrest as [|? ? Hitem Hrest']; subst.
    cbn [max_from]. unfold py_gt.
    destruct (x_gt (number_value item) (number_value maxitem)) eqn:Hgt.
    + destruct (IH item) as (i & Hi & Hle & Hlt); [assumption|].
      exists (S i). repeat split.
      * exact Hi.
      * intros [|j] y H.
        -- injection H as <-. unfold num_le.
           apply x_lt_le. eapply x_lt_le_trans; [apply x_gt_lt; eassumption|].
           apply (Hle 0%nat). reflexivity.
        -- apply (Hle j). exact H.
      * intros [|j] y Hj H.
        -- injection H as <-. unfold num_lt.
           eapply x_lt_le_trans; [apply x_gt_lt; eassumption|].
           apply (Hle 0%nat). reflexivity.
        -- apply (Hlt j); [lia|exact H].
    + assert (Hitem_le : num_le item maxitem)
        by (apply x_ngt_le; auto using score_ok_not_nan).
      destruct (IH maxitem) as (i & Hi & Hle & Hlt); [constructor; assumption|].
      destruct i as [|i].
      * exists 0%nat. repeat split.
        -- exact Hi.
        -- intros [|[|j]] y H.
           ++ apply (Hle 0%nat). exact H.
           ++ injection H as <-. cbn in Hi. injection Hi as Hi. rewrite <- Hi. exact Hitem_le.
           ++ apply (Hle (S j)). exact H.
        -- intros j y Hj. lia.
      * exists (S (S i)). repeat split.
        -- exact Hi.
        -- intros [|[|j]] y H.
           ++ apply (Hle 0%nat). exact H.
           ++ injection H as <-. eapply x_le_trans; [exact Hitem_le|].
              apply (Hle 0%nat). reflexivity.
           ++ apply (Hle (S j)). exact H.
        -- intros [|[|j]] y Hj H.
           ++ apply (Hlt 0%nat); [lia|exact H].
           ++ injection H as <-. eapply x_le_lt_trans; [exact Hitem_le|].
              apply (Hlt 0%nat); [lia|reflexivity].
           ++ apply (Hlt (S j)); [lia|exact H].
Qed.

(** [index] returns the first position that holds the value looked for. *)
Lemma index_from_first x : forall l i k,
  l !! i = Some x ->
  is_nan (number_value x) = false ->
  (forall j y, (j < i)%nat -> l !! j = Some y -> num_lt y x) ->
  index_from x l k = Some (k + i)%nat.
Proof.
  induction l as [|y l IH]; intros i k Hi Hnan Hbefore; [discriminate|].
  cbn [index_from]. destruct i as [|i].
  - injection Hi as ->. unfold py_same. rewrite x_eq_refl by assumption.
    cbn. f_equal. lia.
  - assert (Hy : num_lt y x) by (apply (Hbefore 0%nat); [lia|reflexivity]).
    unfold py_same. rewrite (x_lt_not_eq _ _ Hy).
    destruct (x_lt_not_nan _ _ Hy) as [-> _]. cbn.
    rewrite (IH i (S k)); [f_equal; lia|exact Hi|exact Hnan|].
    intros j z Hj Hz. apply (Hbefore (S j)); [lia|exact Hz].
Qed.

(** ** The inference handler *)

Section HandlerFacts.

Variable rt : Runtime.

Lemma publish_response_mem payload_dict w :
  mem (publish_response rt payload_dict w).2 = mem w.
Proof.
  unfold publish_response. run_M.
  destruct (nonempty (RESPONSE_TOPIC (mem w))); cbn; [|reflexivity].
  destruct (iot_data_client (mem w)); reflexivity.
Qed.

(** With a topic and a client, [publish_response] calls the broker with
    the serialized payload, at QoS 1. *)
Lemma publish_response_records payload_dict w :
  nonempty (RESPONSE_TOPIC (mem w)) = true ->
  iot_data_client (mem w) = true ->
  (publish_response rt payload_dict w).2 =
  World (mem w)
        (Mqtt (RESPONSE_TOPIC (mem w)) 1 (json_dumps rt payload_dict) :: outbox w).
Proof.
  intros Htopic Hclient. unfold publish_response. run_M.
  rewrite Htopic, Hclient. reflexivity.
Qed.

(** An event that the log statement cannot serialize: the exception
    leaves the handler, which has done nothing yet. *)
Lemma lambda_handler_raises event w e :
  dumps_event rt event = Raised e ->
  lambda_handler rt event w = (Raised e, w).
Proof. intros H. unfold lambda_handler. rewrite H. reflexivity. Qed.

(** Every path of the handler after the log statement returns
    [{'statusCode', 'body'}] with the serialization of a payload, after
    [publish_response] on that payload; the one exception is the return of
    line 105, which publishes nothing. *)
Lemma lambda_handler_paths event w logged :
  dumps_event rt event = Ok logged ->
  exists status body_payload,
    (lambda_handler rt event w).1 = Ok (response rt status body_payload)
    /\ ((lambda_handler rt event w).2 = (publish_response rt body_payload w).2
        \/ (LABELS_LOADED_SUCCESSFULLY (mem w) = true
            /\ nonempty (SAGEMAKER_ENDPOINT_NAME (mem w)) = false
            /\ status = 500
            /\ (lambda_handler rt event w).2 = w)).
Proof.
  intros Hlog. unfold lambda_handler. rewrite Hlog. run_M.
  destruct (LABELS_LOADED_SUCCESSFULLY (mem w)) eqn:Hflag; cbn.
  2: { destruct (publish_response rt _ w) as [[] w'] eqn:Hp. cbn.
       do 2 eexists. split; [reflexivity|]. left. rewrite Hp. reflexivity. }
  destruct (nonempty (SAGEMAKER_ENDPOINT_NAME (mem w))) eqn:Hname; cbn.
  2: { do 2 eexists. split; [reflexivity|]. right. auto. }
  destruct (extract_image_data rt event) as [image_b64|e].
  2: { destruct (publish_response rt _ w) as [[] w'] eqn:Hp. cbn.
       do 2 eexists. split; [reflexivity|]. left. rewrite Hp. reflexivity. }
  destruct (b64decode rt image_b64) as [image_bytes|e].
  2: { destruct (publish_response rt _ w) as [[] w'] eqn:Hp. cbn.
       do 2 eexists. split; [reflexivity|]. left. rewrite Hp. reflexivity. }
  destruct (preprocess rt image_bytes) as [processed_image|e].
  2: { destruct (publish_response rt _ w) as [[] w'] eqn:Hp. cbn.
       do 2 eexists. split; [reflexivity|]. left. rewrite Hp. reflexivity. }
  destruct (infer rt (mem w) processed_image) as [[status output_payload]|e].
  - destruct (publish_response rt _ w) as [[] w'] eqn:Hp. cbn.
    do 2 eexists. split; [reflexivity|]. left. rewrite Hp. reflexivity.
  - destruct (publish_response rt _ w) as [[] w'] eqn:Hp. cbn.
    do 2 eexists. split; [reflexivity|]. left. rewrite Hp. reflexivity.
Qed.

(** The handler returns exactly when the log statement does. *)
Lemma lambda_handler_returns event w r :
  (lambda_handler rt event w).1 = Ok r -> exists logged, dumps_event rt event = Ok logged.
Proof.
  destruct (dumps_event rt event) as [logged|e] eqn:Hlog; [eauto|].
  rewrite (lambda_handler_raises event w e Hlog). discriminate.
Qed.

(** The handler writes none of the globals. *)
Lemma lambda_handler_mem event w : mem (lambda_handler rt event w).2 = mem w.
Proof.
  destruct (dumps_event rt event) as [logged|e] eqn:Hlog.
  - destruct (lambda_handler_paths event w logged Hlog)
      as (status & p & _ & [H|(_ & _ & _ & H)]);
      rewrite H; [apply publish_response_mem|reflexivity].
  - rewrite (lambda_handler_raises event w e Hlog). reflexivity.
Qed.

Lemma serve_mem events : forall w, mem (serve rt events w) = mem w.
Proof.
  induction events as [|event events IH]; intros w; [reflexivity|].
  unfold serve in *. cbn [fold_left]. rewrite IH. apply lambda_handler_mem.
Qed.

(** The handler with the label table missing: lines 97-102. *)
Lemma lambda_handler_not_loaded event w logged :
  dumps_event rt event = Ok logged ->
  LABELS_LOADED_SUCCESSFULLY (mem w) = false ->
  (lambda_handler rt event w).1
  = Ok (response rt 500 (error_payload labels_not_loaded_message)).
Proof.
  intros Hlog Hflag. unfold lambda_handler. rewrite Hlog. run_M. rewrite Hflag. cbn.
  destruct (publish_response rt _ w) as [[] w']. reflexivity.
Qed.

(** The mapping step on scores that [max] can order: it returns the label
    at the first position of the greatest score, or the placeholder text
    when the table has no such position, with the rounded score. *)
Lemma map_probabilities_argmax labels l scores :
  as_numbers l = Some scores ->
  Forall (fun n => score_ok n = true) scores ->
  scores <> [] ->
  exists i score,
    scores !! i = Some score
    /\ (forall j y, scores !! j = Some y -> num_le y score)
    /\ (forall j y, (j < i)%nat -> scores !! j = Some y -> num_lt y score)
    /\ map_probabilities rt labels l
       = Ok (VDict [("prediction",
                     match labels !! i with
                     | Some label => label_value label
                     | None => VStr "Error: Label index out of bounds or mapping failed"
                     end);
                    ("confidence", py_round4 rt score)]).
Proof.
  intros Hnum Hok Hne. unfold map_probabilities. rewrite Hnum.
  destruct scores as [|first rest]; [contradiction|].
  destruct (max_from_first rest first Hok) as (i & Hi & Hle & Hlt).
  set (max_prob := max_from first rest) in *.
  assert (Hmax_ok : score_ok max_prob = true).
  { rewrite Forall_forall in Hok. apply Hok.
    eapply list_elem_of_lookup_2. exact Hi. }
  exists i, max_prob. repeat split; try assumption.
  unfold py_max. fold max_prob. run_result.
  unfold py_index.
  rewrite (index_from_first max_prob (first :: rest) i 0%nat Hi
             (score_ok_not_nan _ Hmax_ok) Hlt).
  cbn. unfold format_4f.
  destruct max_prob as [b|z|f] eqn:Hm; cbn; try reflexivity.
  unfold score_ok in Hmax_ok. apply andb_true_iff in Hmax_ok as [_ Hfit].
  rewrite Hfit. reflexivity.
Qed.

(** The handler once the image is ready for the endpoint. *)
Lemma lambda_handler_infer event w logged image_b64 image_bytes processed_image :
  dumps_event rt event = Ok logged ->
  LABELS_LOADED_SUCCESSFULLY (mem w) = true ->
  nonempty (SAGEMAKER_ENDPOINT_NAME (mem w)) = true ->
  extract_image_data rt event = Ok image_b64 ->
  b64decode rt image_b64 = Ok image_bytes ->
  preprocess rt image_bytes = Ok processed_image ->
  (lambda_handler rt event w).1 =
  match infer rt (mem w) processed_image with
  | Ok (status, output_payload) => Ok (response rt status output_payload)
  | Raised e =>
      Ok (response rt 500
            (VDict [("error", VStr ("Unhandled exception during SageMaker interaction or result processing: "
                                    ++ exn_str e));
                    ("traceback", VStr (exn_traceback e))]))
  end.
Proof.
  intros Hlog Hflag Hname Hev Hb64 Hpre. unfold lambda_handler. rewrite Hlog. run_M.
  rewrite Hflag, Hname. cbn. rewrite Hev, Hb64, Hpre.
  destruct (infer rt (mem w) processed_image) as [[status p]|e];
    destruct (publish_response rt _ w) as [[] w']; reflexivity.
Qed.

(** The [try] block of lines 143-209 once the endpoint has answered a
    list under ['probabilities']. *)
Lemma infer_mapped g processed_image body d l :
  invoke_endpoint rt (SAGEMAKER_ENDPOINT_NAME g) processed_image = Ok body ->
  json_loads rt body = Ok (VDict d) ->
  dict_get d "probabilities" = Some (VList l) ->
  infer rt g processed_image =
  match map_probabilities rt (IMAGENET_LABELS g) l with
  | Ok output_payload => Ok (200, output_payload)
  | Raised e => Raised e
  end.
Proof.
  intros Hinv Hloads Hprobs. unfold infer. run_result.
  rewrite Hinv. cbn. rewrite Hloads. cbn. rewrite Hprobs.
  destruct (map_probabilities rt (IMAGENET_LABELS g) l); reflexivity.
Qed.

End HandlerFacts.

Lemma forallb_Forall {A} (f : A -> bool) (l : list A) :
  forallb f l = true -> Forall (fun x => f x = true) l.
Proof.
  induction l as [|x l IH]; cbn; intros H; constructor;
    apply andb_true_iff in H as [? ?]; auto.
Qed.

(** The handler on a request that reaches the mapping step. *)
Lemma lambda_handler_mapped rt event w logged image_b64 image_bytes processed_image
    body d l output_payload :
  dumps_event rt event = Ok logged ->
  LABELS_LOADED_SUCCESSFULLY (mem w) = true ->
  nonempty (SAGEMAKER_ENDPOINT_NAME (mem w)) = true ->
  extract_image_data rt event = Ok image_b64 ->
  b64decode rt image_b64 = Ok image_bytes ->
  preprocess rt image_bytes = Ok processed_image ->
  invoke_endpoint rt (SAGEMAKER_ENDPOINT_NAME (mem w)) processed_image = Ok body ->
  json_loads rt body = Ok (VDict d) ->
  dict_get d "probabilities" = Some (VList l) ->
  map_probabilities rt (IMAGENET_LABELS (mem w)) l = Ok output_payload ->
  (lambda_handler rt event w).1 = Ok (response rt 200 output_payload).
Proof.
  intros Hlog Hflag Hname Hev Hb64 Hpre Hinv Hloads Hprobs Hmap.
  rewrite (lambda_handler_infer rt event w _ _ _ _ Hlog Hflag Hname Hev Hb64 Hpre).
  rewrite (infer_mapped rt _ _ _ _ _ Hinv Hloads Hprobs), Hmap. reflexivity.
Qed.

(** C1. When the probability vector is as long as the loaded label table,
    the handler's success result pairs the label stored at the index of the
    maximum score with that score rounded to 4 places; among equal maxima
    the first index is the one used. *)
Theorem prediction_is_first_argmax
    py_int rt endpoint response_topic file w event logged
    image_b64 image_bytes processed_image body d l scores :
  mem w = initialized py_int endpoint response_topic file ->
  LABELS_LOADED_SUCCESSFULLY (mem w) = true ->
  nonempty endpoint = true ->
  dumps_event rt event = Ok logged ->
  extract_image_data rt event = Ok image_b64 ->
  b64decode rt image_b64 = Ok image_bytes ->
  preprocess rt image_bytes = Ok processed_image ->
  invoke_endpoint rt endpoint processed_image = Ok body ->
  json_loads rt body = Ok (VDict d) ->
  dict_get d "probabilities" = Some (VList l) ->
  as_numbers l = Some scores ->
  forallb score_ok scores = true ->
  length scores = length (IMAGENET_LABELS (mem w)) ->
  exists i score label,
    scores !! i = Some score
    /\ IMAGENET_LABELS (mem w) !! i = Some (Some label)
    /\ (forall j y, scores !! j = Some y -> num_le y score)
    /\ (forall j y, (j < i)%nat -> scores !! j = Some y -> num_lt y score)
    /\ (lambda_handler rt event w).1
       = Ok (response rt 200 (VDict [("prediction", VStr label);
                                     ("confidence", py_round4 rt score)])).
Proof.
  intros Hmem Hflag Hname Hlog Hev Hb64 Hpre Hinv Hloads Hprobs Hnum Hok Hlen.
  assert (Hendpoint : SAGEMAKER_ENDPOINT_NAME (mem w) = endpoint).
  { rewrite Hmem. unfold initialized.
    destruct file as [|rows|rows]; cbn; try reflexivity.
    destruct (read_rows py_int rows) as [labels_temp count].
    destruct ((count =? 1000) && all_present labels_temp); reflexivity. }
  rewrite Hmem in Hflag. unfold initialized in Hflag.
  destruct (load_success py_int _ _ Hflag) as (rows & _ & _ & Hlen1000 & Hlabels).
  fold (initialized py_int endpoint response_topic file) in Hlen1000, Hlabels, Hflag.
  rewrite <- Hmem in Hlen1000, Hlabels, Hflag.
  assert (Hne : scores <> []).
  { intros ->. rewrite Hlen1000 in Hlen. discriminate. }
  destruct (map_probabilities_argmax rt (IMAGENET_LABELS (mem w)) l scores
              Hnum (forallb_Forall _ _ Hok) Hne)
    as (i & score & Hi & Hle & Hlt & Hmap).
  assert (Hbound : (i < 1000)%nat).
  { apply lookup_lt_Some in Hi. lia. }
  destruct (Hlabels i Hbound) as (label & _ & Hlabel).
  rewrite Hlabel in Hmap. cbn in Hmap.
  exists i, score, label. repeat split; try assumption.
  eapply lambda_handler_mapped; try eassumption.
  - rewrite Hendpoint. exact Hname.
  - rewrite Hendpoint. exact Hinv.
Qed.

(** The sample request: 1000 scores with the maximum 0.9 at 7 and 9. *)
Lemma prediction_is_first_argmax_witness :
  exists i score label,
    Demo.score_numbers !! i = Some score
    /\ IMAGENET_LABELS (mem Demo.w_ready) !! i = Some (Some label)
    /\ (forall j y, Demo.score_numbers !! j = Some y -> num_le y score)
    /\ (forall j y, (j < i)%nat -> Demo.score_numbers !! j = Some y -> num_lt y score)
    /\ (lambda_handler Demo.rt_1000 Demo.jpeg_event Demo.w_ready).1
       = Ok (response Demo.rt_1000 200
               (VDict [("prediction", VStr label);
                       ("confidence", py_round4 Demo.rt_1000 score)])).
Proof.
  apply (prediction_is_first_argmax Demo.demo_int Demo.rt_1000
           "endpoint" "device/image/response"
           Demo.imagenet_csv Demo.w_ready Demo.jpeg_event "image_data"
           (VStr Demo.jpeg_b64) Demo.jpeg_start Demo.jpeg_start "response"
           [("probabilities", VList Demo.scores_1000)] Demo.scores_1000);
    vm_compute; reflexivity.
Defined.

(** On the sample request the label is that of index 7, the first of the
    two maxima. *)
Example sample_prediction :
  map_probabilities Demo.rt_1000 (IMAGENET_LABELS (mem Demo.w_ready)) Demo.scores_1000
  = Ok (VDict [("prediction", VStr "label_7"); ("confidence", VFloat Demo.f_09)]).
Proof. vm_compute. reflexivity. Qed.

(** Outside the probabilities: when the first score is a NaN, [max] keeps
    it, since no score compares greater, and [index] finds it at 0. *)
Example nan_first_is_kept :
  map_probabilities Demo.rt_1000 (IMAGENET_LABELS (mem Demo.w_ready))
    [VFloat S754_nan; VFloat Demo.f_09]
  = Ok (VDict [("prediction", VStr "label_0"); ("confidence", VFloat S754_nan)]).
Proof. vm_compute. reflexivity. Qed.

(** C3, as the code has it. When fewer than 1000 valid label rows were
    loaded, the table is empty for every request, whatever was served
    before; an event that the log statement of line 94 can serialize gets
    status 500 with the message that the labels could not be loaded; an
    event that it cannot serialize gets no response: the exception of
    [json.dumps] leaves the handler, and nothing is published. *)
Theorem labels_not_loaded_response_or_exception
    py_int rt endpoint response_topic file earlier out event :
  loaded_rows py_int file < 1000 ->
  IMAGENET_LABELS
    (mem (serve rt earlier (World (initialized py_int endpoint response_topic file) out)))
  = []
  /\ (forall logged,
        dumps_event rt event = Ok logged ->
        (lambda_handler rt event
           (serve rt earlier (World (initialized py_int endpoint response_topic file) out))).1
        = Ok (response rt 500 (error_payload labels_not_loaded_message)))
  /\ (forall e,
        dumps_event rt event = Raised e ->
        lambda_handler rt event
          (serve rt earlier (World (initialized py_int endpoint response_topic file) out))
        = (Raised e,
           serve rt earlier (World (initialized py_int endpoint response_topic file) out))).
Proof.
  intros Hfew.
  pose proof (load_few_rows py_int file (initial_globals endpoint response_topic) Hfew)
    as Hflag.
  pose proof (load_failure py_int _ _ Hflag) as Hload.
  split; [|split].
  - rewrite serve_mem. cbn. unfold initialized. rewrite Hload. reflexivity.
  - intros logged Hlog. apply (lambda_handler_not_loaded rt _ _ logged Hlog).
    rewrite serve_mem. exact Hflag.
  - intros e Hlog. apply lambda_handler_raises. exact Hlog.
Qed.

Lemma labels_not_loaded_response_or_exception_witness :
  IMAGENET_LABELS (mem (serve Demo.rt_1000 [Demo.jpeg_event] Demo.w_no_labels)) = []
  /\ (forall logged,
        dumps_event Demo.rt_1000 Demo.deep_event = Ok logged ->
        (lambda_handler Demo.rt_1000 Demo.deep_event
           (serve Demo.rt_1000 [Demo.jpeg_event] Demo.w_no_labels)).1
        = Ok (response Demo.rt_1000 500 (error_payload labels_not_loaded_message)))
  /\ (forall e,
        dumps_event Demo.rt_1000 Demo.deep_event = Raised e ->
        lambda_handler Demo.rt_1000 Demo.deep_event
          (serve Demo.rt_1000 [Demo.jpeg_event] Demo.w_no_labels)
        = (Raised e, serve Demo.rt_1000 [Demo.jpeg_event] Demo.w_no_labels)).
Proof.
  apply (labels_not_loaded_response_or_exception Demo.demo_int Demo.rt_1000
           "endpoint" "device/image/response" (FileRows (Demo.label_rows 20))
           [Demo.jpeg_event] [] Demo.deep_event).
  vm_compute. reflexivity.
Defined.

(** The two cases of C3 on the sample process without its labels: the
    sample event gets status 500 and the message is published; the event
    with the deep list gets the exception of the encoder, and nothing is
    published for it. *)
Example not_loaded_sample_event :
  lambda_handler Demo.rt_1000 Demo.jpeg_event Demo.w_no_labels
  = (Ok (response Demo.rt_1000 500 (error_payload labels_not_loaded_message)),
     World (mem Demo.w_no_labels) [Mqtt "device/image/response" 1 "error"]).
Proof. vm_compute. reflexivity. Qed.

Example not_loaded_deep_event :
  lambda_handler Demo.rt_1000 Demo.deep_event Demo.w_no_labels
  = (Raised (Exn "maximum recursion depth exceeded while encoding a JSON object"
                 "RecursionError"),
     Demo.w_no_labels).
Proof. vm_compute. reflexivity. Qed.

(** C7. Once the label table has been loaded it has exactly 1000 entries,
    a label at each index 0..999 and nothing beyond, and no sequence of
    handler invocations changes it, or any other global. *)
Theorem label_table_fixed py_int rt endpoint response_topic file events out :
  LABELS_LOADED_SUCCESSFULLY (initialized py_int endpoint response_topic file) = true ->
  length (IMAGENET_LABELS (initialized py_int endpoint response_topic file)) = 1000%nat
  /\ (forall i, (i < 1000)%nat ->
        exists label,
          IMAGENET_LABELS (initialized py_int endpoint response_topic file) !! i
          = Some (Some label))
  /\ (forall i, (1000 <= i)%nat ->
        IMAGENET_LABELS (initialized py_int endpoint response_topic file) !! i = None)
  /\ mem (serve rt events (World (initialized py_int endpoint response_topic file) out))
     = initialized py_int endpoint response_topic file.
Proof.
  intros Hflag. unfold initialized in *.
  destruct (load_success py_int _ _ Hflag) as (rows & _ & _ & Hlen & Hlabels).
  repeat split.
  - exact Hlen.
  - intros i Hi. destruct (Hlabels i Hi) as (label & _ & H). eauto.
  - intros i Hi. apply lookup_ge_None. lia.
  - apply serve_mem.
Qed.

Lemma label_table_fixed_witness :
  length (IMAGENET_LABELS (mem Demo.w_ready)) = 1000%nat
  /\ (forall i, (i < 1000)%nat ->
        exists label, IMAGENET_LABELS (mem Demo.w_ready) !! i = Some (Some label))
  /\ (forall i, (1000 <= i)%nat -> IMAGENET_LABELS (mem Demo.w_ready) !! i = None)
  /\ mem (serve Demo.rt_1000 [Demo.jpeg_event; Demo.corrupt_event; VNone] Demo.w_ready)
     = mem Demo.w_ready.
Proof.
  apply (label_table_fixed Demo.demo_int Demo.rt_1000 "endpoint" "device/image/response"
           Demo.imagenet_csv [Demo.jpeg_event; Demo.corrupt_event; VNone] []).
  vm_compute. reflexivity.
Defined.

(** ** Shapes of the handler's results *)

(** After initialization no slot of the table holds [None]. *)
Lemma initialized_labels_present py_int endpoint response_topic file i x :
  IMAGENET_LABELS (initialized py_int endpoint response_topic file) !! i = Some x ->
  exists label, x = Some label.
Proof.
  unfold initialized. intros Hx.
  destruct (LABELS_LOADED_SUCCESSFULLY
              (load_labels_from_csv py_int file (initial_globals endpoint response_topic)))
    eqn:Hflag.
  - destruct (load_success py_int _ _ Hflag) as (rows & _ & _ & Hlen & Hlabels).
    assert (Hi : (i < 1000)%nat) by (apply lookup_lt_Some in Hx; lia).
    destruct (Hlabels i Hi) as (label & _ & H). rewrite H in Hx.
    injection Hx as <-. eauto.
  - rewrite (load_failure py_int _ _ Hflag) in Hx. discriminate.
Qed.

(** The payload of a successful mapping step. *)
Lemma map_probabilities_payload rt labels l output_payload :
  (forall i x, labels !! i = Some x -> exists label, x = Some label) ->
  map_probabilities rt labels l = Ok output_payload ->
  exists label score,
    output_payload = VDict [("prediction", VStr label);
                            ("confidence", py_round4 rt score)].
Proof.
  intros Hlabels. unfold map_probabilities.
  destruct (as_numbers l) as [scores|]; [|discriminate].
  run_result.
  destruct (py_max rt scores) as [max_prob|e]; [|discriminate].
  destruct (py_index rt scores max_prob) as [predicted_index|e]; [|discriminate].
  destruct (format_4f rt max_prob) as [[]|e]; [|discriminate].
  intros [= <-].
  destruct (labels !! predicted_index) as [x|] eqn:Hx.
  - destruct (Hlabels _ _ Hx) as [label ->]. cbn. eauto.
  - eauto.
Qed.

(** The results of the [try] block of lines 143-209. *)
Lemma infer_results rt g processed_image status output_payload :
  (forall i x, IMAGENET_LABELS g !! i = Some x -> exists label, x = Some label) ->
  infer rt g processed_image = Ok (status, output_payload) ->
  (status = 200
   /\ exists label score,
        output_payload = VDict [("prediction", VStr label);
                                ("confidence", py_round4 rt score)])
  \/ (status = 502 /\ output_payload = error_payload unexpected_format_message).
Proof.
  intros Hlabels. unfold infer. run_result.
  destruct (invoke_endpoint rt _ processed_image) as [body|e]; [|discriminate].
  destruct (json_loads rt body) as [parsed|e]; [|discriminate].
  destruct parsed as [| | | | |l|d]; try (intros [= <- <-]; right; auto).
  destruct (dict_get d "probabilities") as [probabilities|];
    [|intros [= <- <-]; right; auto].
  destruct probabilities as [| | | | |l|d']; try discriminate.
  destruct (map_probabilities rt (IMAGENET_LABELS g) l) as [payload|e] eqn:Hmap;
    [|discriminate].
  intros [= <- <-]. left. split; [reflexivity|].
  eapply map_probabilities_payload; eassumption.
Qed.

(** C2, as the code has it. For every event that the log statement of
    line 94 can serialize, the handler returns exactly
    [{'statusCode': int, 'body': str}]; the body serializes
    [{'prediction': str, 'confidence': number}] with status 200, or
    [{'error': str}] with status 400, 500 or 502, or, on the catch-all path
    of lines 211-218, [{'error': str, 'traceback': str}] with status 500. *)
Theorem response_shape py_int rt endpoint response_topic file w event logged :
  mem w = initialized py_int endpoint response_topic file ->
  dumps_event rt event = Ok logged ->
  exists status body_payload,
    (lambda_handler rt event w).1
    = Ok (VDict [("statusCode", VInt status);
                 ("body", VStr (json_dumps rt body_payload))])
    /\ ((status = 200
         /\ exists label score,
              body_payload = VDict [("prediction", VStr label);
                                    ("confidence", py_round4 rt score)])
        \/ ((status = 400 \/ status = 500 \/ status = 502)
            /\ exists message, body_payload = VDict [("error", VStr message)])
        \/ (status = 500
            /\ exists message trace,
                 body_payload = VDict [("error", VStr message);
                                       ("traceback", VStr trace)])).
Proof.
  intros Hmem Hlog.
  assert (Hlabels : forall i x, IMAGENET_LABELS (mem w) !! i = Some x ->
                                exists label, x = Some label).
  { rewrite Hmem. apply initialized_labels_present. }
  unfold lambda_handler. rewrite Hlog. run_M.
  destruct (LABELS_LOADED_SUCCESSFULLY (mem w)); cbn.
  2: { destruct (publish_response rt _ w) as [[] w']. cbn.
       do 2 eexists. split; [reflexivity|]. right. left. unfold error_payload. eauto. }
  destruct (nonempty (SAGEMAKER_ENDPOINT_NAME (mem w))); cbn.
  2: { do 2 eexists. split; [reflexivity|]. right. left. unfold error_payload. eauto. }
  destruct (extract_image_data rt event) as [image_b64|e].
  2: { destruct (publish_response rt _ w) as [[] w']. cbn.
       do 2 eexists. split; [reflexivity|]. right. left. unfold error_payload. eauto. }
  destruct (b64decode rt image_b64) as [image_bytes|e].
  2: { destruct (publish_response rt _ w) as [[] w']. cbn.
       do 2 eexists. split; [reflexivity|]. right. left. unfold error_payload. eauto. }
  destruct (preprocess rt image_bytes) as [processed_image|e].
  2: { destruct (publish_response rt _ w) as [[] w']. cbn.
       do 2 eexists. split; [reflexivity|]. right. left. unfold error_payload. eauto. }
  destruct (infer rt (mem w) processed_image) as [[status output_payload]|e] eqn:Hinfer.
  - destruct (publish_response rt _ w) as [[] w']. cbn.
    do 2 eexists. split; [reflexivity|].
    destruct (infer_results rt _ _ _ _ Hlabels Hinfer) as [[-> Hp]|[-> ->]].
    + left. auto.
    + right. left. unfold error_payload. eauto.
  - destruct (publish_response rt _ w) as [[] w']. cbn.
    do 2 eexists. split; [reflexivity|]. right. right. eauto.
Qed.

Lemma response_shape_witness :
  exists status body_payload,
    (lambda_handler Demo.rt_1000 Demo.jpeg_event Demo.w_ready).1
    = Ok (VDict [("statusCode", VInt status);
                 ("body", VStr (json_dumps Demo.rt_1000 body_payload))])
    /\ ((status = 200
         /\ exists label score,
              body_payload = VDict [("prediction", VStr label);
                                    ("confidence", py_round4 Demo.rt_1000 score)])
        \/ ((status = 400 \/ status = 500 \/ status = 502)
            /\ exists message, body_payload = VDict [("error", VStr message)])
        \/ (status = 500
            /\ exists message trace,
                 body_payload = VDict [("error", VStr message);
                                       ("traceback", VStr trace)])).
Proof.
  apply (response_shape Demo.demo_int Demo.rt_1000 "endpoint" "device/image/response"
           Demo.imagenet_csv Demo.w_ready Demo.jpeg_event "image_data").
  - reflexivity.
  - vm_compute. reflexivity.
Defined.

(** C2 fails as stated: when the endpoint answers an empty list of
    probabilities, [max] raises, and the body of the 500 response holds the
    two keys ['error'] and ['traceback']: it is the serialization neither
    of an [{'error'}] object nor of a [{'prediction', 'confidence'}] one. *)
Lemma catch_all_body_has_traceback :
  (lambda_handler Demo.rt_empty Demo.jpeg_event Demo.w_ready).1
  = Ok (VDict [("statusCode", VInt 500);
               ("body", VStr (json_dumps Demo.rt_empty
                  (VDict [("error", VStr "Unhandled exception during SageMaker interaction or result processing: builtin error");
                          ("traceback", VStr "Traceback (most recent call last)")])))])
  /\ ~ (exists status body_payload,
          (lambda_handler Demo.rt_empty Demo.jpeg_event Demo.w_ready).1
          = Ok (VDict [("statusCode", VInt status);
                       ("body", VStr (json_dumps Demo.rt_empty body_payload))])
          /\ ((exists label confidence,
                 body_payload = VDict [("prediction", VStr label);
                                       ("confidence", confidence)])
              \/ (exists message, body_payload = VDict [("error", VStr message)]))).
Proof.
  assert (H : (lambda_handler Demo.rt_empty Demo.jpeg_event Demo.w_ready).1
              = Ok (VDict [("statusCode", VInt 500); ("body", VStr "error,traceback")]))
    by (vm_compute; reflexivity).
  split; [vm_compute; reflexivity|].
  rewrite H.
  intros (status & body_payload & Heq & [(label & confidence & ->)|(message & ->)]);
    discriminate.
Qed.

(** The first handler returns a third key on success. *)
Example src_success_has_three_keys :
  Src.lambda_handler Demo.rt_short Demo.jpeg_event
  = Ok (VDict [("statusCode", VInt 200);
               ("body", VStr (json_dumps Demo.rt_short
                                (VDict [("probabilities", VList [VFloat Demo.f_09])])));
               ("response", VDict [("probabilities", VList [VFloat Demo.f_09])])]).
Proof. vm_compute. reflexivity. Qed.

(** ** Malformed events *)

(** A dict event without a usable ['image_data'] makes stage 1 raise. *)
Lemma extract_missing rt d :
  truthy (default VNone (dict_get d "image_data")) = false ->
  extract_image_data rt (VDict d)
  = Raised (raise_own rt "Missing 'image_data' in event data").
Proof.
  intros H. unfold extract_image_data. run_result. rewrite H. reflexivity.
Qed.

(** C4, as the code has it. With the labels loaded and the endpoint
    configured, on every event that the log statement of line 94 can
    serialize the handler returns a response and raises no exception:
    status 400 when ['image_data'] is missing or empty or the event cannot
    be read, status 400 when [b64decode] raises, and status 500 when the
    decoded bytes are no image that PIL can open, resize and save. *)
Theorem malformed_event_status rt event w logged :
  LABELS_LOADED_SUCCESSFULLY (mem w) = true ->
  nonempty (SAGEMAKER_ENDPOINT_NAME (mem w)) = true ->
  dumps_event rt event = Ok logged ->
  (exists status body_payload,
     (lambda_handler rt event w).1 = Ok (response rt status body_payload))
  /\ (forall d,
        event = VDict d ->
        truthy (default VNone (dict_get d "image_data")) = false ->
        (lambda_handler rt event w).1
        = Ok (response rt 400
                (error_payload
                   "Error parsing event data: Missing 'image_data' in event data")))
  /\ (forall e,
        extract_image_data rt event = Raised e ->
        (lambda_handler rt event w).1
        = Ok (response rt 400 (error_payload ("Error parsing event data: " ++ exn_str e))))
  /\ (forall image_b64 e,
        extract_image_data rt event = Ok image_b64 ->
        b64decode rt image_b64 = Raised e ->
        (lambda_handler rt event w).1
        = Ok (response rt 400
                (error_payload ("Error decoding base64 image: " ++ exn_str e))))
  /\ (forall image_b64 image_bytes e,
        extract_image_data rt event = Ok image_b64 ->
        b64decode rt image_b64 = Ok image_bytes ->
        preprocess rt image_bytes = Raised e ->
        (lambda_handler rt event w).1
        = Ok (response rt 500
                (error_payload ("Image preprocessing failed: " ++ exn_str e)))).
Proof.
  intros Hflag Hname Hlog.
  assert (Hparse : forall e,
        extract_image_data rt event = Raised e ->
        (lambda_handler rt event w).1
        = Ok (response rt 400 (error_payload ("Error parsing event data: " ++ exn_str e)))).
  { intros e He. unfold lambda_handler. rewrite Hlog. run_M.
    rewrite Hflag, Hname. cbn. rewrite He.
    destruct (publish_response rt _ w) as [[] w']. reflexivity. }
  split; [|split; [|split; [|split]]].
  - destruct (lambda_handler_paths rt event w logged Hlog) as (status & p & H & _). eauto.
  - intros d -> Hfalsy. rewrite (Hparse _ (extract_missing rt d Hfalsy)). reflexivity.
  - exact Hparse.
  - intros image_b64 e Hev Hb64. unfold lambda_handler. rewrite Hlog. run_M.
    rewrite Hflag, Hname. cbn. rewrite Hev, Hb64.
    destruct (publish_response rt _ w) as [[] w']. reflexivity.
  - intros image_b64 image_bytes e Hev Hb64 Hpre. unfold lambda_handler.
    rewrite Hlog. run_M.
    rewrite Hflag, Hname. cbn. rewrite Hev, Hb64, Hpre.
    destruct (publish_response rt _ w) as [[] w']. reflexivity.
Qed.

Lemma malformed_event_status_witness :
  (lambda_handler Demo.rt_1000 (VDict [("image_data", VStr "")]) Demo.w_ready).1
  = Ok (response Demo.rt_1000 400
          (error_payload "Error parsing event data: Missing 'image_data' in event data"))
  /\ (lambda_handler Demo.rt_1000 (VDict [("image_data", VInt 7)]) Demo.w_ready).1
     = Ok (response Demo.rt_1000 400
             (error_payload "Error decoding base64 image: argument should be a bytes-like object or ASCII string")).
Proof.
  split.
  - refine (proj1 (proj2 (malformed_event_status Demo.rt_1000
                            (VDict [("image_data", VStr "")]) Demo.w_ready
                            "image_data" _ _ _))
              [("image_data", VStr "")] _ _); vm_compute; reflexivity.
  - refine (proj1 (proj2 (proj2 (proj2 (malformed_event_status Demo.rt_1000
                            (VDict [("image_data", VInt 7)]) Demo.w_ready
                            "image_data" _ _ _))))
              (VInt 7) (Exn "argument should be a bytes-like object or ASCII string"
                            "TypeError") _ _); vm_compute; reflexivity.
Defined.

(** C4 fails as stated: an event whose ['image_data'] decodes to bytes that
    are no image gets status 500, not a status of the 400 class. *)
Lemma corrupt_image_is_500 :
  extract_image_data Demo.rt_1000 Demo.corrupt_event = Ok (VStr "!!!!")
  /\ b64decode Demo.rt_1000 (VStr "!!!!") = Ok []
  /\ preprocess Demo.rt_1000 []
     = Raised (Exn "cannot identify image file" "PIL.UnidentifiedImageError")
  /\ (lambda_handler Demo.rt_1000 Demo.corrupt_event Demo.w_ready).1
     = Ok (response Demo.rt_1000 500
             (error_payload "Image preprocessing failed: cannot identify image file"))
  /\ ~ (exists status,
          returned_status (lambda_handler Demo.rt_1000 Demo.corrupt_event Demo.w_ready).1
          = Some status
          /\ 400 <= status < 500).
Proof.
  split; [vm_compute; reflexivity|].
  split; [vm_compute; reflexivity|].
  split; [vm_compute; reflexivity|].
  assert (H : (lambda_handler Demo.rt_1000 Demo.corrupt_event Demo.w_ready).1
     = Ok (response Demo.rt_1000 500
             (error_payload "Image preprocessing failed: cannot identify image file")))
    by (vm_compute; reflexivity).
  split; [exact H|].
  rewrite H. intros (status & Hstatus & Hclass).
  injection Hstatus as <-. lia.
Qed.

(** ** Vectors of another length than the table *)

(** C5, as the code has it. A vector whose length differs from the 1000
    entries of the loaded table only draws a warning (lines 179-180). On an
    empty vector [max] raises, and the handler returns status 500 with the
    error and the traceback of the catch-all path. A shorter vector gets
    status 200 with the label at the first index of its maximum score. A
    longer vector gets status 200 too: with that label when the index is
    below 1000, and with the text of line 186 in the place of the label
    when it is not. *)
Theorem length_mismatch_is_mapped
    py_int rt endpoint response_topic file w event logged
    image_b64 image_bytes processed_image body d l scores :
  mem w = initialized py_int endpoint response_topic file ->
  LABELS_LOADED_SUCCESSFULLY (mem w) = true ->
  nonempty endpoint = true ->
  dumps_event rt event = Ok logged ->
  extract_image_data rt event = Ok image_b64 ->
  b64decode rt image_b64 = Ok image_bytes ->
  preprocess rt image_bytes = Ok processed_image ->
  invoke_endpoint rt endpoint processed_image = Ok body ->
  json_loads rt body = Ok (VDict d) ->
  dict_get d "probabilities" = Some (VList l) ->
  as_numbers l = Some scores ->
  forallb score_ok scores = true ->
  length scores <> length (IMAGENET_LABELS (mem w)) ->
  (scores = []
   /\ (lambda_handler rt event w).1
      = Ok (response rt 500
              (VDict [("error", VStr ("Unhandled exception during SageMaker interaction or result processing: "
                                      ++ exn_str (builtin_error rt MaxOfEmpty)));
                      ("traceback", VStr (exn_traceback (builtin_error rt MaxOfEmpty)))])))
  \/ (exists i score,
        scores !! i = Some score
        /\ (forall j y, scores !! j = Some y -> num_le y score)
        /\ (forall j y, (j < i)%nat -> scores !! j = Some y -> num_lt y score)
        /\ (((length scores < 1000)%nat \/ (i < 1000 < length scores)%nat)
            /\ (exists label,
                  IMAGENET_LABELS (mem w) !! i = Some (Some label)
                  /\ (lambda_handler rt event w).1
                     = Ok (response rt 200
                             (VDict [("prediction", VStr label);
                                     ("confidence", py_round4 rt score)])))
            \/ ((1000 <= i < length scores)%nat
                /\ (lambda_handler rt event w).1
                   = Ok (response rt 200
                           (VDict [("prediction",
                                    VStr "Error: Label index out of bounds or mapping failed");
                                   ("confidence", py_round4 rt score)]))))).
Proof.
  intros Hmem Hflag Hname Hlog Hev Hb64 Hpre Hinv Hloads Hprobs Hnum Hok Hlen.
  assert (Hendpoint : SAGEMAKER_ENDPOINT_NAME (mem w) = endpoint).
  { rewrite Hmem. unfold initialized.
    destruct file as [|rows|rows]; cbn; try reflexivity.
    destruct (read_rows py_int rows) as [labels_temp count].
    destruct ((count =? 1000) && all_present labels_temp); reflexivity. }
  rewrite Hmem in Hflag. unfold initialized in Hflag.
  destruct (load_success py_int _ _ Hflag) as (rows & _ & _ & Hlen1000 & Hlabels).
  fold (initialized py_int endpoint response_topic file) in Hlen1000, Hlabels, Hflag.
  rewrite <- Hmem in Hlen1000, Hlabels, Hflag.
  rewrite <- Hendpoint in Hname, Hinv.
  rewrite Hlen1000 in Hlen.
  destruct scores as [|first rest] eqn:Hscores.
  - left. split; [reflexivity|].
    rewrite (lambda_handler_infer rt event w _ _ _ _ Hlog Hflag Hname Hev Hb64 Hpre).
    rewrite (infer_mapped rt _ _ _ _ _ Hinv Hloads Hprobs).
    unfold map_probabilities. rewrite Hnum. reflexivity.
  - right. rewrite <- Hscores in *.
    assert (Hne : scores <> []) by (rewrite Hscores; discriminate).
    destruct (map_probabilities_argmax rt (IMAGENET_LABELS (mem w)) l scores
                Hnum (forallb_Forall _ _ Hok) Hne)
      as (i & score & Hi & Hle & Hlt & Hmap).
    exists i, score. repeat (split; [assumption|]).
    pose proof (lookup_lt_Some _ _ _ Hi) as Hbound.
    destruct (Nat.lt_ge_cases i 1000) as [Hin|Hout].
    + left. split; [lia|].
      destruct (Hlabels i Hin) as (label & _ & Hlabel).
      exists label. split; [exact Hlabel|].
      rewrite Hlabel in Hmap. cbn in Hmap.
      eapply lambda_handler_mapped; eassumption.
    + right. split; [lia|].
      assert (Hnone : IMAGENET_LABELS (mem w) !! i = None)
        by (apply lookup_ge_None; lia).
      rewrite Hnone in Hmap.
      eapply lambda_handler_mapped; eassumption.
Qed.

(** A vector of 1001 scores with the maximum at index 1000: the prediction
    is the text of line 186, the status 200. *)
Lemma length_mismatch_is_mapped_witness :
  (Demo.long_numbers = []
   /\ (lambda_handler Demo.rt_long Demo.jpeg_event Demo.w_ready).1
      = Ok (response Demo.rt_long 500
              (VDict [("error", VStr ("Unhandled exception during SageMaker interaction or result processing: "
                                      ++ exn_str (builtin_error Demo.rt_long MaxOfEmpty)));
                      ("traceback",
                       VStr (exn_traceback (builtin_error Demo.rt_long MaxOfEmpty)))])))
  \/ (exists i score,
        Demo.long_numbers !! i = Some score
        /\ (forall j y, Demo.long_numbers !! j = Some y -> num_le y score)
        /\ (forall j y, (j < i)%nat -> Demo.long_numbers !! j = Some y -> num_lt y score)
        /\ (((length Demo.long_numbers < 1000)%nat
             \/ (i < 1000 < length Demo.long_numbers)%nat)
            /\ (exists label,
                  IMAGENET_LABELS (mem Demo.w_ready) !! i = Some (Some label)
                  /\ (lambda_handler Demo.rt_long Demo.jpeg_event Demo.w_ready).1
                     = Ok (response Demo.rt_long 200
                             (VDict [("prediction", VStr label);
                                     ("confidence", py_round4 Demo.rt_long score)])))
            \/ ((1000 <= i < length Demo.long_numbers)%nat
                /\ (lambda_handler Demo.rt_long Demo.jpeg_event Demo.w_ready).1
                   = Ok (response Demo.rt_long 200
                           (VDict [("prediction",
                                    VStr "Error: Label index out of bounds or mapping failed");
                                   ("confidence", py_round4 Demo.rt_long score)]))))).
Proof.
  apply (length_mismatch_is_mapped Demo.demo_int Demo.rt_long
           "endpoint" "device/image/response"
           Demo.imagenet_csv Demo.w_ready Demo.jpeg_event "image_data"
           (VStr Demo.jpeg_b64) Demo.jpeg_start Demo.jpeg_start "response"
           [("probabilities", VList Demo.long_scores)] Demo.long_scores);
    vm_compute; try reflexivity; discriminate.
Defined.

Example out_of_bounds_prediction :
  (lambda_handler Demo.rt_long Demo.jpeg_event Demo.w_ready).1
  = Ok (response Demo.rt_long 200
          (VDict [("prediction", VStr "Error: Label index out of bounds or mapping failed");
                  ("confidence", VFloat Demo.f_half)])).
Proof. vm_compute. reflexivity. Qed.

Example empty_vector_is_500 :
  (lambda_handler Demo.rt_empty Demo.jpeg_event Demo.w_ready).1
  = Ok (response Demo.rt_empty 500
          (VDict [("error", VStr "Unhandled exception during SageMaker interaction or result processing: builtin error");
                  ("traceback", VStr "Traceback (most recent call last)")])).
Proof. vm_compute. reflexivity. Qed.

(** C5 fails as stated: for a vector of one score and the table of 1000
    labels the mapping step returns a label, and the handler status 200
    with that label as the prediction. *)
Lemma short_vector_gets_label :
  length [VFloat Demo.f_09] <> length (IMAGENET_LABELS (mem Demo.w_ready))
  /\ map_probabilities Demo.rt_short (IMAGENET_LABELS (mem Demo.w_ready)) [VFloat Demo.f_09]
     = Ok (VDict [("prediction", VStr "label_0"); ("confidence", VFloat Demo.f_09)])
  /\ (lambda_handler Demo.rt_short Demo.jpeg_event Demo.w_ready).1
     = Ok (response Demo.rt_short 200
             (VDict [("prediction", VStr "label_0"); ("confidence", VFloat Demo.f_09)]))
  /\ returned_status (lambda_handler Demo.rt_short Demo.jpeg_event Demo.w_ready).1
     = Some 200.
Proof.
  split; [vm_compute; discriminate|].
  split; [vm_compute; reflexivity|].
  split; vm_compute; reflexivity.
Qed.

(** ** Publishing before the return *)

(** [publish_response] looks at its payload through [json.dumps] only. *)
Lemma publish_response_dumps rt p q w :
  json_dumps rt p = json_dumps rt q ->
  publish_response rt p w = publish_response rt q w.
Proof.
  intros H. unfold publish_response. run_M. rewrite H. reflexivity.
Qed.

Lemma response_inj rt status status' p q :
  response rt status p = response rt status' q ->
  status = status' /\ json_dumps rt p = json_dumps rt q.
Proof. unfold response. intros [= -> ->]. auto. Qed.

(** C6, as the code has it. On every path that returns another status
    than 200, except the return of line 105 for a missing endpoint name,
    the handler has called [publish_response] on the error payload before
    it returns: with a topic and a client, the payload is the latest
    message sent to the broker. *)
Theorem error_published_before_return rt event w status error_payload_dict :
  (lambda_handler rt event w).1 = Ok (response rt status error_payload_dict) ->
  status <> 200 ->
  LABELS_LOADED_SUCCESSFULLY (mem w) = false
  \/ nonempty (SAGEMAKER_ENDPOINT_NAME (mem w)) = true ->
  (lambda_handler rt event w).2 = (publish_response rt error_payload_dict w).2
  /\ (nonempty (RESPONSE_TOPIC (mem w)) = true ->
      iot_data_client (mem w) = true ->
      outbox (lambda_handler rt event w).2
      = Mqtt (RESPONSE_TOPIC (mem w)) 1 (json_dumps rt error_payload_dict) :: outbox w).
Proof.
  intros Hresp Hstatus Hconf.
  destruct (lambda_handler_returns rt event w _ Hresp) as [logged Hlog].
  assert (Hpub : (lambda_handler rt event w).2
                 = (publish_response rt error_payload_dict w).2).
  { destruct (lambda_handler_paths rt event w logged Hlog)
      as (status0 & p0 & Hresp0 & [Hpub|(Hflag & Hname & _ & _)]).
    - assert (Heq : response rt status error_payload_dict = response rt status0 p0)
        by congruence.
      apply response_inj in Heq as [_ Hdumps].
      rewrite Hpub. rewrite (publish_response_dumps rt _ _ w Hdumps). reflexivity.
    - destruct Hconf; congruence. }
  split; [exact Hpub|].
  intros Htopic Hclient. rewrite Hpub.
  rewrite publish_response_records by assumption. reflexivity.
Qed.

Lemma error_published_before_return_witness :
  (lambda_handler Demo.rt_1000 Demo.corrupt_event Demo.w_ready).2
  = (publish_response Demo.rt_1000
       (error_payload "Image preprocessing failed: cannot identify image file")
       Demo.w_ready).2
  /\ (nonempty (RESPONSE_TOPIC (mem Demo.w_ready)) = true ->
      iot_data_client (mem Demo.w_ready) = true ->
      outbox (lambda_handler Demo.rt_1000 Demo.corrupt_event Demo.w_ready).2
      = Mqtt (RESPONSE_TOPIC (mem Demo.w_ready)) 1
          (json_dumps Demo.rt_1000
             (error_payload "Image preprocessing failed: cannot identify image file"))
        :: outbox Demo.w_ready).
Proof.
  apply (error_published_before_return Demo.rt_1000 Demo.corrupt_event Demo.w_ready 500).
  - vm_compute. reflexivity.
  - discriminate.
  - right. vm_compute. reflexivity.
Defined.

(** C6 fails as stated: with the labels loaded, a topic and a client, but
    an empty endpoint name, the handler returns status 500 and has sent
    nothing to the broker, where [publish_response] on the payload would
    have sent one message. *)
Lemma missing_endpoint_not_published :
  (lambda_handler Demo.rt_1000 Demo.jpeg_event Demo.w_no_endpoint).1
  = Ok (response Demo.rt_1000 500
          (error_payload "Error: SAGEMAKER_ENDPOINT_NAME configuration missing."))
  /\ returned_status (lambda_handler Demo.rt_1000 Demo.jpeg_event Demo.w_no_endpoint).1
     = Some 500
  /\ outbox (lambda_handler Demo.rt_1000 Demo.jpeg_event Demo.w_no_endpoint).2 = []
  /\ outbox (publish_response Demo.rt_1000
               (error_payload "Error: SAGEMAKER_ENDPOINT_NAME configuration missing.")
               Demo.w_no_endpoint).2
     = [Mqtt "device/image/response" 1 "error"].
Proof.
  split; [vm_compute; reflexivity|].
  split; [vm_compute; reflexivity|].
  split; vm_compute; reflexivity.
Qed.

(** The handler of [copy 2] publishes on each path that its log statement
    lets it reach: its two configuration tests never fire, the names being
    constants. *)
Lemma copy2_always_publishes rt event w logged :
  dumps_event rt event = Ok logged ->
  exists status body_payload,
    (Copy2.lambda_handler rt event w).1 = Ok (response rt status body_payload)
    /\ (Copy2.lambda_handler rt event w).2
       = World (mem w)
           (Mqtt Copy2.RESPONSE_TOPIC 1 (json_dumps rt body_payload) :: outbox w).
Proof.
  intros Hlog.
  unfold Copy2.lambda_handler. rewrite Hlog.
  cbn [negb nonempty]. cbn -[Copy2.RESPONSE_TOPIC response].
  destruct (extract_image_data rt event) as [image_b64|e];
    [|do 2 eexists; split; reflexivity].
  destruct (b64decode rt image_b64) as [image_bytes|e];
    [|do 2 eexists; split; reflexivity].
  destruct (preprocess rt image_bytes) as [processed_image|e];
    [|do 2 eexists; split; reflexivity].
  run_result.
  destruct (invoke_endpoint rt _ processed_image) as [body|e];
    [|do 2 eexists; split; reflexivity].
  destruct (json_loads rt body) as [sagemaker_result|e];
    do 2 eexists; split; reflexivity.
Qed.

(** The first handler publishes nothing: its result is a value alone. *)
Example src_corrupt_image_500 :
  Src.lambda_handler Demo.rt_1000 Demo.corrupt_event
  = Ok (response Demo.rt_1000 500
          (error_payload "Image preprocessing failed: cannot identify image file")).
Proof. vm_compute. reflexivity. Qed.

(** ** The image sent to the endpoint *)

Section Preprocessing.

Variable rt : Runtime.

(** What the handler relies on from PIL, stated on three observations of
    an image: its size, its mode, and the files that are JPEG encodings of
    it. *)
Variable size_of : image rt -> Z * Z.
Variable mode_of : image rt -> string.
Variable jpeg_of : list Byte.byte -> image rt -> Prop.

(** [Image.open(...).convert('RGB')] returns an image of mode RGB. *)
Hypothesis convert_gives_rgb :
  forall image_bytes im, open_rgb rt image_bytes = Ok im -> mode_of im = "RGB".

(** [image.resize((w, h))] with positive sides returns an image of that
    size, in the mode of its argument. *)
Hypothesis resize_gives_size :
  forall im w h,
    0 < w -> 0 < h ->
    exists im', resize rt im w h = Ok im' /\ size_of im' = (w, h) /\ mode_of im' = mode_of im.

(** [image.save(buffer, format="JPEG")] on an image of mode RGB leaves a
    JPEG encoding of the image in the buffer. *)
Hypothesis save_gives_jpeg :
  forall im,
    mode_of im = "RGB" ->
    exists file, save_jpeg rt im = Ok file /\ jpeg_of file im.

(** C8, under the three contracts of PIL above. When ['image_data']
    decodes to bytes that PIL opens as an image, stage 3 returns the JPEG
    encoding of an image of 224 by 224 pixels in mode RGB, and the handler
    goes on to the endpoint with these bytes. *)
Theorem preprocessed_image_is_224_rgb_jpeg image_b64 image_bytes im0 :
  b64decode rt image_b64 = Ok image_bytes ->
  open_rgb rt image_bytes = Ok im0 ->
  exists processed_image im,
    preprocess rt image_bytes = Ok processed_image
    /\ jpeg_of processed_image im
    /\ size_of im = (224, 224)
    /\ mode_of im = "RGB"
    /\ forall event w logged,
         dumps_event rt event = Ok logged ->
         LABELS_LOADED_SUCCESSFULLY (mem w) = true ->
         nonempty (SAGEMAKER_ENDPOINT_NAME (mem w)) = true ->
         extract_image_data rt event = Ok image_b64 ->
         (lambda_handler rt event w).1 =
         match infer rt (mem w) processed_image with
         | Ok (status, output_payload) => Ok (response rt status output_payload)
         | Raised e =>
             Ok (response rt 500
                   (VDict [("error", VStr ("Unhandled exception during SageMaker interaction or result processing: "
                                           ++ exn_str e));
                           ("traceback", VStr (exn_traceback e))]))
         end.
Proof.
  intros Hb64 Hopen.
  destruct (resize_gives_size im0 224 224) as (im & Hresize & Hsize & Hmode); [lia|lia|].
  rewrite (convert_gives_rgb _ _ Hopen) in Hmode.
  destruct (save_gives_jpeg im Hmode) as (file & Hsave & Hjpeg).
  assert (Hpre : preprocess rt image_bytes = Ok file).
  { unfold preprocess. run_result. rewrite Hopen. cbn. rewrite Hresize. cbn. exact Hsave. }
  exists file, im. repeat (split; [assumption|]).
  intros event w logged Hlog Hflag Hname Hev.
  apply (lambda_handler_infer rt event w logged image_b64 image_bytes file);
    assumption.
Qed.

End Preprocessing.

(** The sample runtime keeps the three contracts, with its images read as
    their sizes. *)
Lemma preprocessed_image_is_224_rgb_jpeg_witness :
  exists processed_image im,
    preprocess Demo.rt_1000 Demo.jpeg_start = Ok processed_image
    /\ Demo.jpeg_file_of processed_image im
    /\ Demo.image_size im = (224, 224)
    /\ Demo.image_mode im = "RGB"
    /\ forall event w logged,
         dumps_event Demo.rt_1000 event = Ok logged ->
         LABELS_LOADED_SUCCESSFULLY (mem w) = true ->
         nonempty (SAGEMAKER_ENDPOINT_NAME (mem w)) = true ->
         extract_image_data Demo.rt_1000 event = Ok (VStr Demo.jpeg_b64) ->
         (lambda_handler Demo.rt_1000 event w).1 =
         match infer Demo.rt_1000 (mem w) processed_image with
         | Ok (status, output_payload) => Ok (response Demo.rt_1000 status output_payload)
         | Raised e =>
             Ok (response Demo.rt_1000 500
                   (VDict [("error", VStr ("Unhandled exception during SageMaker interaction or result processing: "
                                           ++ exn_str e));
                           ("traceback", VStr (exn_traceback e))]))
         end.
Proof.
  apply (preprocessed_image_is_224_rgb_jpeg Demo.rt_1000
           Demo.image_size Demo.image_mode Demo.jpeg_file_of)
    with (im0 := (640, 480)).
  - intros image_bytes im _. reflexivity.
  - intros im w h _ _. exists (w, h). repeat split.
  - intros im _. exists Demo.jpeg_start. split; reflexivity.
  - reflexivity.
  - reflexivity.
Defined.

Example sample_image_is_preprocessed :
  preprocess Demo.rt_1000 Demo.jpeg_start = Ok Demo.jpeg_start.
Proof. reflexivity. Qed.

(** ** The device publisher *)

Section Pub2Facts.

Import Pub2.

(** What every step keeps: an error code means that the flag is down, and
    outside the publishing loop and the end that follows it nothing has
    been published and the counter stands at 0. *)
Lemma step_invariant s e :
  (connection_error_code (shared s) <> None -> connection_established (shared s) = false)
  /\ (in_loop (at_point s) = false -> at_point s <> Exited 0 ->
      published s = [] /\ message_count s = 0) ->
  (connection_error_code (shared (step s e)) <> None ->
     connection_established (shared (step s e)) = false)
  /\ (in_loop (at_point (step s e)) = false -> at_point (step s e) <> Exited 0 ->
      published (step s e) = [] /\ message_count (step s e) = 0).
Proof.
  destruct s as [[established code] p start count pub].
  intros (Hcode & Hout). cbn in *.
  destruct p, e as [rc|now| |]; cbn in *; unfold on_connect; cbn;
    try specialize (Hout eq_refl); try specialize (Hout ltac:(discriminate));
    repeat match goal with
           | |- context [rc =? 0] => destruct (rc =? 0); cbn
           | |- context [if established then _ else _] => destruct established; cbn
           | |- context [match code with _ => _ end] => destruct code; cbn
           | |- context [Qcompare ?a ?b] => destruct (Qcompare a b); cbn
           end;
    split; intros; try discriminate; try congruence; auto;
    try (destruct Hout; subst; auto; fail).
Qed.

Lemma run_snoc s evs e : run s (evs ++ [e]) = step (run s evs) e.
Proof. unfold run. rewrite fold_left_app. reflexivity. Qed.

Lemma run_app s evs evs' : run s (evs ++ evs') = run (run s evs) evs'.
Proof. unfold run. apply fold_left_app. Qed.

Lemma run_invariant evs :
  (connection_error_code (shared (run initial evs)) <> None ->
     connection_established (shared (run initial evs)) = false)
  /\ (in_loop (at_point (run initial evs)) = false ->
      at_point (run initial evs) <> Exited 0 ->
      published (run initial evs) = [] /\ message_count (run initial evs) = 0).
Proof.
  induction evs as [|e evs IH] using rev_ind.
  - cbn. split; intros; try discriminate; auto.
  - rewrite run_snoc. apply step_invariant. exact IH.
Qed.

(** While the main thread waits, and when it has given up, nothing has
    been published. *)
Lemma run_waiting evs :
  waiting (at_point (run initial evs)) = true \/ at_point (run initial evs) = Exited 1 ->
  published (run initial evs) = [].
Proof.
  intros Hp. apply (run_invariant evs).
  - destruct Hp as [Hp|Hp]; [|rewrite Hp; reflexivity].
    destruct (at_point (run initial evs)); try discriminate; reflexivity.
  - destruct Hp as [Hp|Hp]; [|rewrite Hp; discriminate].
    destruct (at_point (run initial evs)); try discriminate.
Qed.

(** Without a callback of return code 0 the flag stays down and the main
    thread does not leave the wait for the publishing loop. *)
Lemma run_unconfirmed evs :
  ~ In (OnConnect 0) evs ->
  connection_established (shared (run initial evs)) = false
  /\ in_loop (at_point (run initial evs)) = false
  /\ at_point (run initial evs) <> Confirmed
  /\ at_point (run initial evs) <> Exited 0
  /\ published (run initial evs) = [].
Proof.
  induction evs as [|e evs IH] using rev_ind; intros Hno.
  - cbn. repeat split; intros; try discriminate; auto.
  - rewrite run_snoc.
    assert (He : e <> OnConnect 0).
    { intros ->. apply Hno. apply in_or_app. right. left. reflexivity. }
    destruct IH as (Hflag & Hloop & Hconf & Hexit & Hnone).
    { intros Hin. apply Hno. apply in_or_app. left. exact Hin. }
    destruct (run initial evs) as [[established code] p start count pub].
    cbn in *. subst established pub.
    destruct p, e as [rc|now| |]; cbn in *; unfold on_connect; cbn;
      repeat match goal with
             | |- context [rc =? 0] => destruct (Z.eqb_spec rc 0); cbn
             | |- context [match code with _ => _ end] => destruct code; cbn
             | |- context [Qcompare ?a ?b] => destruct (Qcompare a b); cbn
             end;
      repeat split; intros; try discriminate; try congruence; auto.
Qed.

Lemma confirmed_dec evs : In (OnConnect 0) evs \/ ~ In (OnConnect 0) evs.
Proof.
  induction evs as [|e evs [IH|IH]]; [right; intros []|left; right; exact IH|].
  destruct e as [rc|now| |];
    try (right; intros [H|H]; [discriminate|contradiction]).
  destruct (Z.eq_dec rc 0) as [->|Hrc]; [left; left; reflexivity|].
  right. intros [H|H]; [congruence|contradiction].
Qed.

(** Once an error code is set and no callback clears it, the main thread
    ends the process with status 1 within the steps that separate it from
    the error test, wherever in the wait it stands. *)
Lemma wait_gives_up rest : forall s,
  waiting (at_point s) = true \/ at_point s = Exited 1 ->
  connection_established (shared s) = false ->
  connection_error_code (shared s) <> None ->
  unconfirmed rest = true ->
  (steps_to_error_exit (at_point s) <= main_steps rest)%nat ->
  at_point (run s rest) = Exited 1 /\ published (run s rest) = published s.
Proof.
  induction rest as [|e rest IH]; intros s Hp Hest Hcode Hun Hsteps.
  - destruct s as [[established code] p start count pub]. cbn in *.
    destruct Hp as [Hp|Hp]; destruct p; try discriminate; cbn in Hsteps; try lia; auto.
  - cbn in Hun. apply andb_true_iff in Hun as [He Hun].
    unfold run. cbn [fold_left]. fold (run (step s e) rest).
    destruct s as [[established code] p start count pub]. cbn in Hest, Hcode, Hp.
    subst established. destruct code as [rc0|]; [clear Hcode|contradiction].
    destruct e as [rc|now| |]; try discriminate.
    + (* a callback with another code than 0 *)
      apply negb_true_iff in He.
      destruct p; destruct Hp as [Hp|Hp]; try discriminate;
        cbn; unfold on_connect; try rewrite He;
        (apply IH; cbn; [auto|reflexivity|discriminate|exact Hun|exact Hsteps]).
    + (* a step of the main thread *)
      destruct p; destruct Hp as [Hp|Hp]; try discriminate; cbn in Hsteps |- *;
        repeat match goal with
               | |- context [Qcompare ?a ?b] => destruct (Qcompare a b); cbn
               end;
        (apply IH; cbn; [auto|reflexivity|discriminate|exact Hun|lia]).
    + (* an exception outside the loop *)
      destruct p; destruct Hp as [Hp|Hp]; try discriminate; cbn;
        (apply IH; cbn; [auto|reflexivity|discriminate|exact Hun|exact Hsteps]).
Qed.

(** While the flag stays down and every reading of the clock is more than
    30 seconds after the start of the wait, the main thread ends the
    process with status 1 within the steps that separate it from the
    timeout test. *)
Lemma wait_times_out rest : forall s,
  (waiting (at_point s) = true /\ at_point s <> AtStart) \/ at_point s = Exited 1 ->
  connection_established (shared s) = false ->
  unconfirmed rest = true ->
  all_late (connection_start_time s) rest = true ->
  (steps_to_timeout_exit (at_point s) <= main_steps rest)%nat ->
  at_point (run s rest) = Exited 1 /\ published (run s rest) = published s.
Proof.
  induction rest as [|e rest IH]; intros s Hp Hest Hun Hlate Hsteps.
  - destruct s as [[established code] p start count pub]. cbn in *.
    destruct Hp as [[Hp Hne]|Hp]; destruct p; try discriminate; try contradiction;
      cbn in Hsteps; try lia; auto.
  - cbn in Hun, Hlate.
    apply andb_true_iff in Hun as [He Hun]. apply andb_true_iff in Hlate as [Hnow Hlate].
    unfold run. cbn [fold_left]. fold (run (step s e) rest).
    destruct s as [[established code] p start count pub]. cbn in Hest, Hp, Hlate, Hnow.
    subst established.
    destruct e as [rc|now| |]; try discriminate.
    + apply negb_true_iff in He.
      destruct p; destruct Hp as [[Hp Hne]|Hp]; try discriminate; try contradiction;
        cbn; unfold on_connect; try rewrite He;
        (apply IH; cbn; [auto|reflexivity|exact Hun|exact Hlate|exact Hsteps]).
    + destruct (Qcompare (now - start) connection_timeout) eqn:Hcmp; try discriminate.
      destruct p; destruct Hp as [[Hp Hne]|Hp]; try discriminate; try contradiction;
        cbn in Hsteps |- *; try rewrite Hcmp;
        repeat match goal with
               | |- context [match code with _ => _ end] => destruct code; cbn
               end;
        (apply IH; cbn; [auto|reflexivity|exact Hun|exact Hlate|lia]).
    + destruct p; destruct Hp as [[Hp Hne]|Hp]; try discriminate; try contradiction; cbn;
        (apply IH; cbn; [auto|reflexivity|exact Hun|exact Hlate|exact Hsteps]).
Qed.

(** C9, as the code has it. In every execution of the publisher from the
    start of the network thread on: no message is published unless a
    connection callback with return code 0 came before, and a process that
    ends with status 1 has published nothing. When a callback reports a
    return code other than 0 while the main thread waits, and neither a
    callback with return code 0 nor an interrupt follows, the fourth step
    of the main thread at the latest ends the process with status 1; so
    does the wait with the flag down once every reading of the clock is
    more than 30 seconds after its start. At the error test of line 120 a
    set error code ends the process with status 1, and at the timeout test
    of line 124 a clock more than 30 seconds after the start does. *)
Theorem no_publish_before_connection evs :
  (published (run initial evs) <> [] -> In (OnConnect 0) evs)
  /\ (at_point (run initial evs) = Exited 1 -> published (run initial evs) = [])
  /\ (forall rc rest,
        waiting (at_point (run initial evs)) = true ->
        rc <> 0 ->
        unconfirmed rest = true ->
        (4 <= main_steps rest)%nat ->
        at_point (run initial (evs ++ OnConnect rc :: rest)) = Exited 1
        /\ published (run initial (evs ++ OnConnect rc :: rest)) = [])
  /\ (forall rest,
        waiting (at_point (run initial evs)) = true ->
        at_point (run initial evs) <> AtStart ->
        connection_established (shared (run initial evs)) = false ->
        unconfirmed rest = true ->
        all_late (connection_start_time (run initial evs)) rest = true ->
        (4 <= main_steps rest)%nat ->
        at_point (run initial (evs ++ rest)) = Exited 1
        /\ published (run initial (evs ++ rest)) = [])
  /\ (forall now,
        at_point (run initial evs) = ErrorTest ->
        connection_error_code (shared (run initial evs)) <> None ->
        at_point (step (run initial evs) (Tick now)) = Exited 1
        /\ published (step (run initial evs) (Tick now)) = [])
  /\ (forall now,
        at_point (run initial evs) = TimeoutTest ->
        (connection_timeout < now - connection_start_time (run initial evs))%Q ->
        at_point (step (run initial evs) (Tick now)) = Exited 1
        /\ published (step (run initial evs) (Tick now)) = []).
Proof.
  pose proof (run_waiting evs) as Hwait.
  split; [|split; [|split; [|split; [|split]]]].
  - intros Hpub. destruct (confirmed_dec evs) as [Hin|Hno]; [exact Hin|].
    destruct (run_unconfirmed evs Hno) as (_ & _ & _ & _ & Hnone). contradiction.
  - intros Hp. apply Hwait. right. exact Hp.
  - intros rc rest Hp Hrc Hun Hsteps.
    rewrite run_app. cbn [run fold_left]. fold (run (step (run initial evs) (OnConnect rc)) rest).
    specialize (Hwait (or_introl Hp)).
    destruct (run initial evs) as [[established code] p start count pub].
    cbn in Hp, Hwait. subst pub.
    apply Z.eqb_neq in Hrc.
    assert (Hstep : step (State (Flags established code) p start count []) (OnConnect rc)
                    = State (Flags false (Some rc)) p start count []).
    { destruct p; try discriminate; cbn; unfold on_connect; rewrite Hrc; reflexivity. }
    rewrite Hstep.
    apply (wait_gives_up rest (State (Flags false (Some rc)) p start count []));
      cbn; [left; exact Hp|reflexivity|discriminate|exact Hun|].
    destruct p; try discriminate; cbn; lia.
  - intros rest Hp Hstart Hest Hun Hlate Hsteps.
    rewrite run_app. specialize (Hwait (or_introl Hp)). rewrite <- Hwait.
    apply wait_times_out; [left; auto|exact Hest|exact Hun|exact Hlate|].
    destruct (at_point (run initial evs)); try discriminate; cbn; lia.
  - intros now Hp Herr.
    assert (Hnone : published (run initial evs) = [])
      by (apply Hwait; left; rewrite Hp; reflexivity).
    destruct (run initial evs) as [[established code] p start count pub].
    cbn in *. subst p. cbn. destruct code; [auto|contradiction].
  - intros now Hp Hlate.
    assert (Hnone : published (run initial evs) = [])
      by (apply Hwait; left; rewrite Hp; reflexivity).
    destruct (run initial evs) as [[established code] p start count pub].
    cbn in *. subst p. cbn.
    apply Qgt_alt in Hlate. rewrite Hlate. auto.
Qed.

End Pub2Facts.

(** C9 fails as stated: a callback reports the return code 5 while the
    main thread sleeps at line 119, the callback that follows reports 0
    and clears the code (line 30), and the process does not exit: it goes
    on to publish its first message. *)
Lemma later_callback_clears_error :
  Pub2.at_point (Pub2.run Pub2.initial [Pub2.Tick 100; Pub2.Tick 100]) = Pub2.Sleeping
  /\ Pub2.run Pub2.initial
       [Pub2.Tick 100; Pub2.Tick 100; Pub2.OnConnect 5; Pub2.OnConnect 0;
        Pub2.Tick 100; Pub2.Tick 100; Pub2.Tick 100; Pub2.Tick 100; Pub2.Tick 100;
        Pub2.Tick 100; Pub2.Tick 101]
     = Pub2.State (Pub2.Flags true None) Pub2.Published 100 1 [Pub2.Message 1 101].
Proof. split; vm_compute; reflexivity. Qed.

(** Runs of the publisher: a confirmed connection followed by the first
    message, a refused connection, a timeout, and an interrupt during the
    wait, which nothing catches. *)
Example run_publishes_after_confirmation :
  Pub2.run Pub2.initial
    [Pub2.Tick 100; Pub2.OnConnect 0; Pub2.Tick 100; Pub2.Tick 100; Pub2.Tick 100;
     Pub2.Tick 101]
  = Pub2.State (Pub2.Flags true None) Pub2.Published 100 1 [Pub2.Message 1 101].
Proof. vm_compute. reflexivity. Qed.

Example run_refused_connection :
  Pub2.run Pub2.initial
    [Pub2.Tick 100; Pub2.OnConnect 5; Pub2.Tick 100; Pub2.Tick 100; Pub2.Tick 100;
     Pub2.OnConnect 0; Pub2.Tick 101]
  = Pub2.State (Pub2.Flags false (Some 5)) (Pub2.Exited 1) 100 0 [].
Proof. vm_compute. reflexivity. Qed.

Example run_timeout :
  Pub2.run Pub2.initial
    [Pub2.Tick 100; Pub2.Tick 100; Pub2.Tick 100; Pub2.Tick 100; Pub2.Tick 131]
  = Pub2.State (Pub2.Flags false None) (Pub2.Exited 1) 100 0 [].
Proof. vm_compute. reflexivity. Qed.

Example run_interrupted_wait :
  Pub2.run Pub2.initial [Pub2.Tick 100; Pub2.Tick 100; Pub2.Interrupt; Pub2.OnConnect 0]
  = Pub2.State (Pub2.Flags false None) Pub2.Aborted 100 0 [].
Proof. vm_compute. reflexivity. Qed.

(** Two loads that do not succeed, and the one of the sample file. *)
Example load_missing_file :
  load_labels_from_csv Demo.demo_int FileMissing (initial_globals "endpoint" "topic")
  = Globals "endpoint" "topic" true [] false.
Proof. reflexivity. Qed.

Example load_duplicate_rows :
  read_rows Demo.demo_int [["1"; "cat"]; ["x"; "dog"]; ["1"; "fox"]; ["1000"; "owl"];
                           ["2"]; ["0"; "tench"]]
  = (<[0%nat := Some "tench"]> (<[1%nat := Some "cat"]> (replicate 1000 None)), 2).
Proof. vm_compute. reflexivity. Qed.

Example load_sample_file :
  LABELS_LOADED_SUCCESSFULLY (mem Demo.w_ready) = true
  /\ IMAGENET_LABELS (mem Demo.w_ready) !! 999%nat = Some (Some "label_999").
Proof. split; vm_compute; reflexivity. Qed.

(** * Further properties of the code *)

(** ** The label loader: which files load, and what does not matter *)

Section LoaderMore.

Variable py_int : string -> option Z.

Local Abbreviation row_entry := (row_entry py_int).
Local Abbreviation first_label := (first_label py_int).
Local Abbreviation read_rows := (read_rows py_int).
Local Abbreviation load_labels_from_csv := (load_labels_from_csv py_int).

Lemma filled_all (l : list (option string)) :
  (forall i, (i < length l)%nat -> exists s, l !! i = Some (Some s)) ->
  filled l = length l.
Proof.
  induction l as [|x l IH]; intros H; [reflexivity|].
  destruct (H 0%nat) as [s Hs]; [cbn; lia|]. cbn in Hs. injection Hs as ->.
  cbn. f_equal. apply IH. intros i Hi. apply (H (S i)). cbn. lia.
Qed.

(** The table and the counter depend on the rows through [first_label]
    only. *)
Lemma read_rows_first_label rows rows' :
  (forall i, (i < 1000)%nat -> first_label rows i = first_label rows' i) ->
  read_rows rows = read_rows rows'.
Proof.
  intros Hsame.
  pose proof (read_rows_spec py_int rows) as (Hlen & Hcount & _ & Hlook).
  pose proof (read_rows_spec py_int rows') as (Hlen' & Hcount' & _ & Hlook').
  destruct (read_rows rows) as [table count], (read_rows rows') as [table' count'].
  cbn in *.
  assert (Htable : table = table').
  { apply list_eq. intros i. destruct (decide (i < 1000)%nat) as [Hi|Hi].
    - rewrite Hlook, Hlook', Hsame by assumption. reflexivity.
    - rewrite !lookup_ge_None_2 by lia. reflexivity. }
  subst table'. f_equal. lia.
Qed.

Lemma first_label_app rows extra i :
  first_label (rows ++ extra) i =
  match first_label rows i with
  | Some label => Some label
  | None => first_label extra i
  end.
Proof.
  induction rows as [|row rows IH]; cbn [app first_label].
  - destruct (first_label extra i); reflexivity.
  - destruct (row_entry row) as [[j label]|]; [|exact IH].
    case_bool_decide; [reflexivity|exact IH].
Qed.

Lemma first_label_elem rows i label :
  first_label rows i = Some label ->
  exists row, row ∈ rows /\ row_entry row = Some (i, label).
Proof.
  induction rows as [|row rows IH]; cbn [first_label]; [discriminate|].
  destruct (row_entry row) as [[j label']|] eqn:Hrow.
  - case_bool_decide as Hj.
    + intros [= ->]. subst j. exists row. split; [left|exact Hrow].
    + intros H. destruct (IH H) as (r & Hin & Hr). exists r. split; [right|]; assumption.
  - intros H. destruct (IH H) as (r & Hin & Hr). exists r. split; [right|]; assumption.
Qed.

Lemma elem_first_label rows row i label :
  NoDup (valid_indices py_int rows) ->
  row ∈ rows -> row_entry row = Some (i, label) ->
  first_label rows i = Some label.
Proof.
  induction rows as [|r rows IH]; intros Hnodup Hin Hrow; [inversion Hin|].
  unfold valid_indices in Hnodup. cbn [omap list_omap] in Hnodup.
  cbn [first_label].
  destruct (row_entry r) as [[j label']|] eqn:Hr; cbn in Hnodup.
  - apply NoDup_cons in Hnodup as [Hfresh Hnodup].
    apply elem_of_cons in Hin as [->|Hin].
    + rewrite Hrow in Hr. injection Hr as <- <-.
      rewrite bool_decide_eq_true_2 by reflexivity. reflexivity.
    + case_bool_decide as Hj; [|apply IH; assumption].
      subst j. exfalso. apply Hfresh.
      unfold valid_indices. apply list_elem_of_omap.
      exists row. split; [assumption|]. rewrite Hrow. reflexivity.
  - apply elem_of_cons in Hin as [->|Hin]; [congruence|].
    apply IH; assumption.
Qed.

(** X1. A file loads exactly when it was read to its end and holds a valid
    row for each of the indices 0 to 999, whatever else it holds. *)
Theorem load_succeeds_iff file g :
  LABELS_LOADED_SUCCESSFULLY (load_labels_from_csv file g) = true
  <-> exists rows,
        file = FileRows rows
        /\ forall i, (i < 1000)%nat -> exists label, first_label rows i = Some label.
Proof.
  split.
  - intros Hflag. destruct (load_success py_int file g Hflag) as (rows & -> & _ & _ & H).
    exists rows. split; [reflexivity|]. intros i Hi.
    destruct (H i Hi) as (label & Hlabel & _). eauto.
  - intros (rows & -> & Hall). rewrite load_flag.
    pose proof (read_rows_spec py_int rows) as (Hlen & Hcount & Hvalid & Hlook).
    rewrite <- Hvalid, Hcount. apply Z.eqb_eq.
    rewrite filled_all; [lia|].
    intros i Hi. rewrite Hlen in Hi. destruct (Hall i Hi) as [label Hlabel].
    exists label. rewrite Hlook, Hlabel by assumption. reflexivity.
Qed.

(** X2. The counter of the loop is the number of filled slots of the
    table, it never passes 1000, and when it is 1000 no slot is [None]: the
    second test of line 54 never decides. *)
Theorem count_is_filled_slots rows :
  (read_rows rows).2 = Z.of_nat (filled (read_rows rows).1)
  /\ 0 <= (read_rows rows).2 <= 1000
  /\ ((read_rows rows).2 = 1000 -> all_present (read_rows rows).1 = true).
Proof.
  pose proof (read_rows_spec py_int rows) as (Hlen & Hcount & _ & _).
  pose proof (filled_le (read_rows rows).1) as Hle.
  split; [exact Hcount|]. split; [lia|].
  intros H. apply filled_all_present. lia.
Qed.

(** X3. Rows after a complete set change nothing: when the rows of a file
    load, the same rows followed by any others load to the same globals. *)
Theorem load_ignores_later_rows rows extra g :
  LABELS_LOADED_SUCCESSFULLY (load_labels_from_csv (FileRows rows) g) = true ->
  load_labels_from_csv (FileRows (rows ++ extra)) g
  = load_labels_from_csv (FileRows rows) g.
Proof.
  intros Hflag.
  destruct (load_success py_int _ g Hflag) as (rows0 & [= <-] & _ & _ & Hall).
  assert (Hsame : read_rows (rows ++ extra) = read_rows rows).
  { apply read_rows_first_label. intros i Hi. rewrite first_label_app.
    destruct (Hall i Hi) as (label & -> & _). reflexivity. }
  cbn. rewrite Hsame. reflexivity.
Qed.

(** X4. The order of the rows does not matter when no index has two valid
    rows: a file and any rearrangement of its rows give the same table and
    counter, and load to the same globals. *)
Theorem load_order_irrelevant rows rows' g :
  Permutation rows rows' ->
  NoDup (valid_indices py_int rows) ->
  read_rows rows' = read_rows rows
  /\ load_labels_from_csv (FileRows rows') g = load_labels_from_csv (FileRows rows) g.
Proof.
  intros Hperm Hnodup.
  assert (Hnodup' : NoDup (valid_indices py_int rows')).
  { unfold valid_indices in *. rewrite <- Hperm. exact Hnodup. }
  assert (Hsame : read_rows rows' = read_rows rows).
  { apply read_rows_first_label. intros i _.
    destruct (first_label rows' i) as [label|] eqn:H'.
    - destruct (first_label_elem _ _ _ H') as (row & Hin & Hrow).
      symmetry. eapply elem_first_label; [exact Hnodup| |exact Hrow].
      rewrite Hperm. exact Hin.
    - destruct (first_label rows i) as [label|] eqn:H; [|reflexivity].
      destruct (first_label_elem _ _ _ H) as (row & Hin & Hrow).
      rewrite <- H'. eapply elem_first_label; [exact Hnodup'| |exact Hrow].
      rewrite <- Hperm. exact Hin. }
  split; [exact Hsame|]. cbn. rewrite Hsame. reflexivity.
Qed.

(** X5. The loader writes its two globals only, and what it writes does
    not depend on what they held: loading a file after any other load gives
    the globals of loading it alone, so no label of an earlier table
    survives a load that fails. *)
Theorem load_overwrites file file' g :
  SAGEMAKER_ENDPOINT_NAME (load_labels_from_csv file g) = SAGEMAKER_ENDPOINT_NAME g
  /\ RESPONSE_TOPIC (load_labels_from_csv file g) = RESPONSE_TOPIC g
  /\ iot_data_client (load_labels_from_csv file g) = iot_data_client g
  /\ load_labels_from_csv file (load_labels_from_csv file' g)
     = load_labels_from_csv file g.
Proof.
  assert (Hshape : forall f, exists labels loaded,
             forall h, load_labels_from_csv f h = set_labels labels loaded h).
  { intros [|rows|rows]; cbn; try (exists [], false; reflexivity).
    destruct (read_rows rows) as [table count].
    destruct ((count =? 1000) && all_present table); eauto. }
  destruct (Hshape file) as (labels & loaded & H).
  destruct (Hshape file') as (labels' & loaded' & H').
  rewrite !H, H'. repeat split.
Qed.

End LoaderMore.

Lemma load_ignores_later_rows_witness :
  load_labels_from_csv Demo.demo_int
    (FileRows (Demo.label_rows 1000 ++ [["7"; "other"]; ["x"; "y"]; ["1000"; "z"]]))
    (initial_globals "endpoint" "device/image/response")
  = load_labels_from_csv Demo.demo_int (FileRows (Demo.label_rows 1000))
      (initial_globals "endpoint" "device/image/response").
Proof.
  apply (load_ignores_later_rows Demo.demo_int).
  vm_compute. reflexivity.
Defined.

Lemma load_order_irrelevant_witness :
  read_rows Demo.demo_int [["2"; "goldfish"]; ["label"]; ["0"; "tench"]]
  = read_rows Demo.demo_int [["0"; "tench"]; ["2"; "goldfish"]; ["label"]]
  /\ load_labels_from_csv Demo.demo_int
    (FileRows [["2"; "goldfish"]; ["label"]; ["0"; "tench"]])
    (initial_globals "endpoint" "device/image/response")
  = load_labels_from_csv Demo.demo_int
      (FileRows [["0"; "tench"]; ["2"; "goldfish"]; ["label"]])
      (initial_globals "endpoint" "device/image/response").
Proof.
  apply (load_order_irrelevant Demo.demo_int).
  - apply (Permutation_cons_append [["2"; "goldfish"]; ["label"]] ["0"; "tench"]).
  - vm_compute. apply (bool_decide_unpack (NoDup [0%nat; 2%nat])). vm_compute. exact I.
Defined.

(** ** The handler: what it publishes and which status it returns *)

Section HandlerMore.

Variable rt : Runtime.

Lemma statusCode_of_response status p : statusCode_of (response rt status p) = Some status.
Proof. reflexivity. Qed.

Lemma body_of_response status p : body_of (response rt status p) = Some (json_dumps rt p).
Proof. reflexivity. Qed.

(** [publish_response] makes one publish call or none. *)
Lemma publish_response_cases p w :
  (publish_response rt p w).2 = w
  \/ (nonempty (RESPONSE_TOPIC (mem w)) = true
      /\ iot_data_client (mem w) = true
      /\ (publish_response rt p w).2
         = World (mem w) (Mqtt (RESPONSE_TOPIC (mem w)) 1 (json_dumps rt p) :: outbox w)).
Proof.
  unfold publish_response. run_M.
  destruct (nonempty (RESPONSE_TOPIC (mem w))); cbn; [|left; destruct w; reflexivity].
  destruct (iot_data_client (mem w)); cbn; [|left; destruct w; reflexivity].
  right. auto.
Qed.

(** X6. On every request the handler makes at most one publish call, and
    the payload of the call is the body it returns, on the response topic
    with QoS 1; the calls made before stay as they are. A request that
    raises in the log statement of line 94 makes no call. *)
Theorem published_message_is_body event w :
  (exists e, lambda_handler rt event w = (Raised e, w))
  \/ (exists body,
        returned_body (lambda_handler rt event w).1 = Some body
        /\ (outbox (lambda_handler rt event w).2 = outbox w
            \/ outbox (lambda_handler rt event w).2
               = Mqtt (RESPONSE_TOPIC (mem w)) 1 body :: outbox w)).
Proof.
  destruct (dumps_event rt event) as [logged|e] eqn:Hlog;
    [right|left; exists e; apply lambda_handler_raises; exact Hlog].
  destruct (lambda_handler_paths rt event w logged Hlog) as (status & p & Hresp & Hpub).
  exists (json_dumps rt p). rewrite Hresp. split; [reflexivity|].
  destruct Hpub as [Hpub|(_ & _ & _ & Hpub)]; rewrite Hpub; [|left; reflexivity].
  destruct (publish_response_cases p w) as [->|(_ & _ & ->)]; auto.
Qed.

(** The requests that make a publish call: all that get past the log
    statement, with a topic and a client, but the one stopped at
    line 105. *)
Lemma lambda_handler_sends event w logged :
  dumps_event rt event = Ok logged ->
  nonempty (RESPONSE_TOPIC (mem w)) = true ->
  iot_data_client (mem w) = true ->
  LABELS_LOADED_SUCCESSFULLY (mem w) = false
  \/ nonempty (SAGEMAKER_ENDPOINT_NAME (mem w)) = true ->
  exists body,
    returned_body (lambda_handler rt event w).1 = Some body
    /\ outbox (lambda_handler rt event w).2
       = Mqtt (RESPONSE_TOPIC (mem w)) 1 body :: outbox w.
Proof.
  intros Hlog Htopic Hclient Hconf.
  destruct (lambda_handler_paths rt event w logged Hlog) as (status & p & Hresp & Hpub).
  exists (json_dumps rt p). rewrite Hresp. split; [reflexivity|].
  destruct Hpub as [Hpub|(Hflag & Hname & _ & _)]; [|destruct Hconf; congruence].
  rewrite Hpub, publish_response_records by assumption. reflexivity.
Qed.

(** X7. A process with a response topic, a client and an endpoint name (or
    without its labels) makes exactly one publish call for each request
    that gets past the log statement of line 94, and none for a request
    that raises there; each call is on the response topic with QoS 1, and
    the earlier calls are kept. *)
Theorem serve_one_publish_call_per_request events w :
  nonempty (RESPONSE_TOPIC (mem w)) = true ->
  iot_data_client (mem w) = true ->
  LABELS_LOADED_SUCCESSFULLY (mem w) = false
  \/ nonempty (SAGEMAKER_ENDPOINT_NAME (mem w)) = true ->
  exists calls,
    outbox (serve rt events w) = (calls ++ outbox w)%list
    /\ length calls
       = length (List.filter (fun event => returns (dumps_event rt event)) events)
    /\ Forall (fun m => topic m = RESPONSE_TOPIC (mem w) /\ qos m = 1) calls.
Proof.
  revert w. induction events as [|event events IH]; intros w Htopic Hclient Hconf.
  - exists []. repeat split. constructor.
  - unfold serve. cbn [fold_left List.filter].
    fold (serve rt events (lambda_handler rt event w).2).
    pose proof (lambda_handler_mem rt event w) as Hmem.
    destruct (IH (lambda_handler rt event w).2) as (calls & Hcalls & Hlen & Hall);
      try (rewrite Hmem; assumption).
    rewrite Hmem in Hall.
    destruct (dumps_event rt event) as [logged|e] eqn:Hlog; cbn [returns].
    + destruct (lambda_handler_sends event w logged Hlog Htopic Hclient Hconf)
        as (body & _ & Hout).
      exists (calls ++ [Mqtt (RESPONSE_TOPIC (mem w)) 1 body])%list.
      rewrite Hcalls, Hout, <- app_assoc. split; [reflexivity|].
      split; [rewrite length_app; cbn; lia|].
      apply Forall_app. split; [exact Hall|].
      constructor; [split; reflexivity|constructor].
    + rewrite (lambda_handler_raises rt event w e Hlog) in Hcalls |- *.
      cbn [snd] in Hcalls |- *.
      exists calls. repeat split; assumption.
Qed.

(** The handler reads its event through the log statement and stage 1
    only. *)
Lemma lambda_handler_extract event event' w logged logged' :
  dumps_event rt event = Ok logged ->
  dumps_event rt event' = Ok logged' ->
  extract_image_data rt event = extract_image_data rt event' ->
  lambda_handler rt event w = lambda_handler rt event' w.
Proof.
  intros Hlog Hlog' H. unfold lambda_handler. rewrite Hlog, Hlog'. run_M.
  rewrite H. reflexivity.
Qed.

(** X8. An event delivered as JSON text is served like the value it
    decodes to, unless it decodes to a text again: the log statement
    serializes the one and the other. *)
Theorem text_event_is_its_value s v w logged logged' :
  dumps_event rt (VStr s) = Ok logged ->
  dumps_event rt v = Ok logged' ->
  json_loads rt s = Ok v ->
  (forall s', v <> VStr s') ->
  lambda_handler rt (VStr s) w = lambda_handler rt v w.
Proof.
  intros Hlog Hlog' Hloads Hv. apply (lambda_handler_extract _ _ _ _ _ Hlog Hlog').
  unfold extract_image_data. run_result. rewrite Hloads.
  destruct v; try reflexivity. exfalso. eapply Hv. reflexivity.
Qed.

(** X9. When the endpoint answers JSON that is no object, or an object
    without the key ['probabilities'], the handler returns status 502 with
    the message of line 170. *)
Theorem unexpected_format_is_502
    event w logged image_b64 image_bytes processed_image body parsed :
  dumps_event rt event = Ok logged ->
  LABELS_LOADED_SUCCESSFULLY (mem w) = true ->
  nonempty (SAGEMAKER_ENDPOINT_NAME (mem w)) = true ->
  extract_image_data rt event = Ok image_b64 ->
  b64decode rt image_b64 = Ok image_bytes ->
  preprocess rt image_bytes = Ok processed_image ->
  invoke_endpoint rt (SAGEMAKER_ENDPOINT_NAME (mem w)) processed_image = Ok body ->
  json_loads rt body = Ok parsed ->
  match parsed with
  | VDict d => dict_get d "probabilities" = None
  | _ => True
  end ->
  (lambda_handler rt event w).1
  = Ok (response rt 502 (error_payload unexpected_format_message))
  /\ returned_status (lambda_handler rt event w).1 = Some 502.
Proof.
  intros Hlog Hflag Hname Hev Hb64 Hpre Hinv Hloads Hshape.
  assert (H : (lambda_handler rt event w).1
              = Ok (response rt 502 (error_payload unexpected_format_message))).
  { rewrite (lambda_handler_infer rt event w _ _ _ _ Hlog Hflag Hname Hev Hb64 Hpre).
    unfold infer. run_result. rewrite Hinv. cbn. rewrite Hloads. cbn.
    destruct parsed; try reflexivity. rewrite Hshape. reflexivity. }
  rewrite H. split; reflexivity.
Qed.

(** X10. When the value under ['probabilities'] is no list, or an empty
    list, or a list that holds a value that is no number, the handler
    returns status 500 with the keys ['error'] and ['traceback']: the
    status 502 is for a missing key only. *)
Theorem unusable_probabilities_is_500
    event w logged image_b64 image_bytes processed_image body d probabilities :
  dumps_event rt event = Ok logged ->
  LABELS_LOADED_SUCCESSFULLY (mem w) = true ->
  nonempty (SAGEMAKER_ENDPOINT_NAME (mem w)) = true ->
  extract_image_data rt event = Ok image_b64 ->
  b64decode rt image_b64 = Ok image_bytes ->
  preprocess rt image_bytes = Ok processed_image ->
  invoke_endpoint rt (SAGEMAKER_ENDPOINT_NAME (mem w)) processed_image = Ok body ->
  json_loads rt body = Ok (VDict d) ->
  dict_get d "probabilities" = Some probabilities ->
  match probabilities with
  | VList l => l = [] \/ as_numbers l = None
  | _ => True
  end ->
  returned_status (lambda_handler rt event w).1 = Some 500
  /\ exists message trace,
       (lambda_handler rt event w).1
       = Ok (response rt 500 (VDict [("error", VStr message); ("traceback", VStr trace)])).
Proof.
  intros Hlog Hflag Hname Hev Hb64 Hpre Hinv Hloads Hkey Hbad.
  assert (H : exists e, infer rt (mem w) processed_image = Raised e).
  { unfold infer. run_result. rewrite Hinv. cbn. rewrite Hloads. cbn. rewrite Hkey.
    destruct probabilities as [| | | | |l|d']; eauto.
    unfold map_probabilities. destruct Hbad as [->|Hnone].
    - cbn. eauto.
    - rewrite Hnone. cbn. eauto. }
  destruct H as [e He].
  rewrite (lambda_handler_infer rt event w _ _ _ _ Hlog Hflag Hname Hev Hb64 Hpre), He.
  split; [reflexivity|eauto].
Qed.

(** [max] returns one of the elements. *)
Lemma max_from_elem rest : forall maxitem, max_from maxitem rest ∈ maxitem :: rest.
Proof.
  induction rest as [|item rest IH]; intros maxitem; cbn [max_from]; [left|].
  destruct (py_gt item maxitem).
  - right. apply IH.
  - specialize (IH maxitem). apply elem_of_cons in IH as [->|IH]; [left|right; right; exact IH].
Qed.

(** [index] finds every element that is no NaN. *)
Lemma index_from_elem x l k :
  x ∈ l -> is_nan (number_value x) = false -> exists i, index_from x l k = Some i.
Proof.
  intros Hin Hnan. revert k. induction l as [|y l IH]; intros k; [inversion Hin|].
  cbn [index_from]. destruct (py_same y x) eqn:Hsame; [eauto|].
  apply elem_of_cons in Hin as [->|Hin]; [|apply IH; exact Hin].
  unfold py_same in Hsame. rewrite x_eq_refl in Hsame by assumption. discriminate.
Qed.

(** X11. The format of the log line 184 decides the response: when the
    greatest score is an int too large for a float, the mapping step
    raises the overflow of that format, although [max] and [index] have
    found the score. *)
Theorem huge_int_score_raises labels l first rest z :
  as_numbers l = Some (first :: rest) ->
  max_from first rest = NInt z ->
  int_fits_float z = false ->
  map_probabilities rt labels l = Raised (builtin_error rt (FormatOverflow z)).
Proof.
  intros Hnum Hmax Hfit. unfold map_probabilities. rewrite Hnum.
  unfold py_max. run_result. rewrite Hmax.
  destruct (index_from_elem (NInt z) (first :: rest) 0%nat) as [i Hi].
  - rewrite <- Hmax. apply max_from_elem.
  - reflexivity.
  - unfold py_index. rewrite Hi. cbn. rewrite Hfit. reflexivity.
Qed.

(** X12. Status 200 is returned only with the labels loaded and the
    endpoint configured, after every stage has succeeded, and its body is
    the payload of the mapping step on the list the endpoint returned. *)
Theorem status_200_only_after_all_stages event w :
  returned_status (lambda_handler rt event w).1 = Some 200 ->
  LABELS_LOADED_SUCCESSFULLY (mem w) = true
  /\ nonempty (SAGEMAKER_ENDPOINT_NAME (mem w)) = true
  /\ exists image_b64 image_bytes processed_image body d l output_payload,
       extract_image_data rt event = Ok image_b64
       /\ b64decode rt image_b64 = Ok image_bytes
       /\ preprocess rt image_bytes = Ok processed_image
       /\ invoke_endpoint rt (SAGEMAKER_ENDPOINT_NAME (mem w)) processed_image = Ok body
       /\ json_loads rt body = Ok (VDict d)
       /\ dict_get d "probabilities" = Some (VList l)
       /\ map_probabilities rt (IMAGENET_LABELS (mem w)) l = Ok output_payload
       /\ (lambda_handler rt event w).1 = Ok (response rt 200 output_payload).
Proof.
  unfold lambda_handler.
  destruct (dumps_event rt event) as [logged|e0]; [|discriminate].
  run_M.
  destruct (LABELS_LOADED_SUCCESSFULLY (mem w)); cbn;
    [|destruct (publish_response rt _ w) as [[] w']; discriminate].
  destruct (nonempty (SAGEMAKER_ENDPOINT_NAME (mem w))); cbn; [|discriminate].
  destruct (extract_image_data rt event) as [image_b64|e] eqn:Hev;
    [|destruct (publish_response rt _ w) as [[] w']; discriminate].
  destruct (b64decode rt image_b64) as [image_bytes|e] eqn:Hb64;
    [|destruct (publish_response rt _ w) as [[] w']; discriminate].
  destruct (preprocess rt image_bytes) as [processed_image|e] eqn:Hpre;
    [|destruct (publish_response rt _ w) as [[] w']; discriminate].
  unfold infer. run_result.
  destruct (invoke_endpoint rt _ processed_image) as [body|e] eqn:Hinv; cbn;
    [|destruct (publish_response rt _ w) as [[] w']; discriminate].
  destruct (json_loads rt body) as [parsed|e] eqn:Hloads; cbn;
    [|destruct (publish_response rt _ w) as [[] w']; discriminate].
  destruct parsed as [| | | | |l0|d];
    try (destruct (publish_response rt _ w) as [[] w']; discriminate).
  destruct (dict_get d "probabilities") as [probabilities|] eqn:Hkey;
    [|destruct (publish_response rt _ w) as [[] w']; discriminate].
  destruct probabilities as [| | | | |l|d'];
    try (destruct (publish_response rt _ w) as [[] w']; discriminate).
  destruct (map_probabilities rt (IMAGENET_LABELS (mem w)) l) as [output_payload|e]
    eqn:Hmap; cbn;
    [|destruct (publish_response rt _ w) as [[] w']; discriminate].
  destruct (publish_response rt _ w) as [[] w']. cbn. intros _.
  split; [reflexivity|]. split; [reflexivity|].
  exists image_b64, image_bytes, processed_image, body, d, l, output_payload.
  repeat split; try assumption; reflexivity.
Qed.

End HandlerMore.

Lemma serve_one_publish_call_per_request_witness :
  exists calls,
    outbox (serve Demo.rt_1000 [Demo.jpeg_event; Demo.deep_event; Demo.corrupt_event]
              Demo.w_ready)
    = (calls ++ outbox Demo.w_ready)%list
    /\ length calls
       = length (List.filter (fun event => returns (dumps_event Demo.rt_1000 event))
                   [Demo.jpeg_event; Demo.deep_event; Demo.corrupt_event])
    /\ Forall (fun m => topic m = RESPONSE_TOPIC (mem Demo.w_ready) /\ qos m = 1) calls.
Proof.
  apply (serve_one_publish_call_per_request Demo.rt_1000
           [Demo.jpeg_event; Demo.deep_event; Demo.corrupt_event] Demo.w_ready).
  - vm_compute. reflexivity.
  - vm_compute. reflexivity.
  - right. vm_compute. reflexivity.
Defined.

(** Of the three sample requests the second raises in the log statement:
    two publish calls are made. *)
Example serve_three_requests :
  outbox (serve Demo.rt_1000 [Demo.jpeg_event; Demo.deep_event; Demo.corrupt_event]
            Demo.w_ready)
  = [Mqtt "device/image/response" 1 "error";
     Mqtt "device/image/response" 1 "prediction,confidence"].
Proof. vm_compute. reflexivity. Qed.

Lemma text_event_is_its_value_witness :
  lambda_handler Demo.rt_text (VStr "response") Demo.w_ready
  = lambda_handler Demo.rt_text Demo.jpeg_event Demo.w_ready.
Proof.
  apply (text_event_is_its_value Demo.rt_text "response" Demo.jpeg_event Demo.w_ready
           "value" "image_data").
  - reflexivity.
  - reflexivity.
  - reflexivity.
  - discriminate.
Defined.

Lemma unexpected_format_is_502_witness :
  (lambda_handler Demo.rt_no_object Demo.jpeg_event Demo.w_ready).1
  = Ok (response Demo.rt_no_object 502 (error_payload unexpected_format_message))
  /\ returned_status (lambda_handler Demo.rt_no_object Demo.jpeg_event Demo.w_ready).1
     = Some 502.
Proof.
  apply (unexpected_format_is_502 Demo.rt_no_object Demo.jpeg_event Demo.w_ready
           "image_data"
           (VStr Demo.jpeg_b64) Demo.jpeg_start Demo.jpeg_start "response" (VList []));
    vm_compute; try reflexivity; exact I.
Defined.

Lemma unusable_probabilities_is_500_witness :
  returned_status (lambda_handler Demo.rt_empty Demo.jpeg_event Demo.w_ready).1 = Some 500
  /\ exists message trace,
       (lambda_handler Demo.rt_empty Demo.jpeg_event Demo.w_ready).1
       = Ok (response Demo.rt_empty 500
               (VDict [("error", VStr message); ("traceback", VStr trace)])).
Proof.
  apply (unusable_probabilities_is_500 Demo.rt_empty Demo.jpeg_event Demo.w_ready
           "image_data"
           (VStr Demo.jpeg_b64) Demo.jpeg_start Demo.jpeg_start "response"
           [("probabilities", VList [])] (VList []));
    try (vm_compute; reflexivity).
  left. reflexivity.
Defined.

Lemma huge_int_score_raises_witness :
  map_probabilities Demo.rt_huge (IMAGENET_LABELS (mem Demo.w_ready)) [VInt (2 ^ 1024)]
  = Raised (builtin_error Demo.rt_huge (FormatOverflow (2 ^ 1024))).
Proof.
  apply (huge_int_score_raises Demo.rt_huge (IMAGENET_LABELS (mem Demo.w_ready))
           [VInt (2 ^ 1024)] (NInt (2 ^ 1024)) [] (2 ^ 1024));
    vm_compute; reflexivity.
Defined.

Lemma status_200_only_after_all_stages_witness :
  LABELS_LOADED_SUCCESSFULLY (mem Demo.w_ready) = true
  /\ nonempty (SAGEMAKER_ENDPOINT_NAME (mem Demo.w_ready)) = true
  /\ exists image_b64 image_bytes processed_image body d l output_payload,
       extract_image_data Demo.rt_1000 Demo.jpeg_event = Ok image_b64
       /\ b64decode Demo.rt_1000 image_b64 = Ok image_bytes
       /\ preprocess Demo.rt_1000 image_bytes = Ok processed_image
       /\ invoke_endpoint Demo.rt_1000 (SAGEMAKER_ENDPOINT_NAME (mem Demo.w_ready))
            processed_image = Ok body
       /\ json_loads Demo.rt_1000 body = Ok (VDict d)
       /\ dict_get d "probabilities" = Some (VList l)
       /\ map_probabilities Demo.rt_1000 (IMAGENET_LABELS (mem Demo.w_ready)) l
          = Ok output_payload
       /\ (lambda_handler Demo.rt_1000 Demo.jpeg_event Demo.w_ready).1
          = Ok (response Demo.rt_1000 200 output_payload).
Proof.
  apply (status_200_only_after_all_stages Demo.rt_1000 Demo.jpeg_event Demo.w_ready).
  vm_compute. reflexivity.
Defined.

(** ** The two earlier handlers *)

Section EarlierHandlers.

Variable rt : Runtime.




(** X15. On an event that fails in one of the stages 1 to 3 (reading the
    event, decoding the base64 text, preprocessing the image) the handler
    of [lambda_function.py], with its labels loaded and its endpoint
    configured, returns what the handler of [copy 2] returns. *)
Theorem handlers_agree_on_failed_stages event w e :
  LABELS_LOADED_SUCCESSFULLY (mem w) = true ->
  nonempty (SAGEMAKER_ENDPOINT_NAME (mem w)) = true ->
  (image_b64 ← extract_image_data rt event;
   image_bytes ← b64decode rt image_b64;
   preprocess rt image_bytes) = Raised e ->
  (lambda_handler rt event w).1 = (Copy2.lambda_handler rt event w).1.
Proof.
  intros Hflag Hname. unfold lambda_handler, Copy2.lambda_handler.
  destruct (dumps_event rt event) as [logged|e0]; [|reflexivity].
  cbn [negb nonempty]. run_M. rewrite Hflag, Hname. cbn -[response].
  run_result.
  destruct (extract_image_data rt event) as [image_b64|e1];
    [|intros _; destruct (publish_response rt _ w) as [[] w']; reflexivity].
  destruct (b64decode rt image_b64) as [image_bytes|e2];
    [|intros _; destruct (publish_response rt _ w) as [[] w']; reflexivity].
  destruct (preprocess rt image_bytes) as [processed_image|e3];
    [discriminate|intros _; destruct (publish_response rt _ w) as [[] w']; reflexivity].
Qed.

(** X16. The first handler raises exactly when [boto3.client] raises, and
    then that exception; otherwise it returns an object with status 200,
    400 or 500. *)
Theorem src_raises_only_without_client event :
  (forall e, Src.lambda_handler rt event = Raised e <-> new_client rt = Raised e)
  /\ (forall u, new_client rt = Ok u ->
        exists r status,
          Src.lambda_handler rt event = Ok r
          /\ statusCode_of r = Some status
          /\ (status = 200 \/ status = 400 \/ status = 500)).
Proof.
  unfold Src.lambda_handler. run_result.
  destruct (new_client rt) as [u|e0].
  - split; [intros e; split; discriminate|]. intros _ _.
    destruct (Src.extract_image_data rt event) as [image_b64|e];
      [|do 2 eexists; split; [reflexivity|split; [reflexivity|auto]]].
    destruct (b64decode rt image_b64) as [image_bytes|e];
      [|do 2 eexists; split; [reflexivity|split; [reflexivity|auto]]].
    destruct (preprocess rt image_bytes) as [processed_image|e];
      [|do 2 eexists; split; [reflexivity|split; [reflexivity|auto]]].
    destruct (invoke_endpoint rt _ processed_image) as [body|e];
      [|do 2 eexists; split; [reflexivity|split; [reflexivity|auto]]].
    destruct (json_loads rt body) as [result|e];
      do 2 eexists; (split; [reflexivity|split; [reflexivity|auto]]).
  - split; [intros e; split; intros [= ->]; reflexivity|]. discriminate.
Qed.

(** X17. The first handler calls [event.get] on the event as it comes: an
    event that is no dict, a JSON text included, gets status 400 with the
    text of the attribute error. *)
Theorem src_rejects_events_that_are_no_dict event u :
  new_client rt = Ok u ->
  (forall d, event <> VDict d) ->
  Src.lambda_handler rt event
  = Ok (response rt 400
          (error_payload ("Error parsing event data: "
                          ++ exn_str (builtin_error rt (NoGetAttribute event))))).
Proof.
  intros Hclient Hevent. unfold Src.lambda_handler. run_result. rewrite Hclient.
  unfold Src.extract_image_data.
  destruct event; try reflexivity. exfalso. eapply Hevent. reflexivity.
Qed.

End EarlierHandlers.

(** The handler of [copy 2] on the sample event and on the event with the
    deep list. *)
Example copy2_sample_event :
  Copy2.lambda_handler Demo.rt_no_object Demo.jpeg_event Demo.w_ready
  = (Ok (response Demo.rt_no_object 200 (VList [])),
     World (mem Demo.w_ready) [Mqtt "device/image/response" 1 "value"]).
Proof. vm_compute. reflexivity. Qed.

Example copy2_deep_event :
  Copy2.lambda_handler Demo.rt_no_object Demo.deep_event Demo.w_ready
  = (Raised (Exn "maximum recursion depth exceeded while encoding a JSON object"
                 "RecursionError"),
     Demo.w_ready).
Proof. vm_compute. reflexivity. Qed.


Lemma handlers_agree_on_failed_stages_witness :
  (lambda_handler Demo.rt_1000 Demo.corrupt_event Demo.w_ready).1
  = (Copy2.lambda_handler Demo.rt_1000 Demo.corrupt_event Demo.w_ready).1.
Proof.
  apply (handlers_agree_on_failed_stages Demo.rt_1000 Demo.corrupt_event Demo.w_ready
           (Exn "cannot identify image file" "PIL.UnidentifiedImageError"));
    vm_compute; reflexivity.
Defined.

Lemma src_rejects_events_that_are_no_dict_witness :
  Src.lambda_handler Demo.rt_text (VStr "response")
  = Ok (response Demo.rt_text 400
          (error_payload
             ("Error parsing event data: "
              ++ exn_str (builtin_error Demo.rt_text (NoGetAttribute (VStr "response")))))).
Proof.
  apply (src_rejects_events_that_are_no_dict Demo.rt_text (VStr "response") tt).
  - reflexivity.
  - discriminate.
Defined.

Example src_uncaught_exception :
  Src.lambda_handler Demo.rt_no_client Demo.jpeg_event
  = Raised (Exn "You must specify a region." "botocore.exceptions.NoRegionError").
Proof. reflexivity. Qed.

(** ** The device publisher: numbering, exits and their reasons *)

Section Pub2More.

Import Pub2.

Lemma numbers_down_S n : numbers_down (S n) = Z.of_nat (S n) :: numbers_down n.
Proof.
  unfold numbers_down. rewrite seq_S, map_app, rev_app_distr. reflexivity.
Qed.

Local Arguments numbers_down : simpl never.

(** The publish calls carry the numbers down to 1, and the counter is
    their number, or one more between the increment of line 136 and the
    call of line 148. *)
Lemma step_numbering s e :
  (in_loop (at_point s) = false -> at_point s <> Exited 0 ->
   published s = [] /\ message_count s = 0) ->
  map number (published s) = numbers_down (length (published s))
  /\ Z.of_nat (length (published s)) <= message_count s
     <= Z.of_nat (length (published s)) + 1
  /\ (at_point s = Counted -> message_count s = Z.of_nat (length (published s)) + 1)
  /\ (at_point s = Publishing \/ at_point s = Published ->
      message_count s = Z.of_nat (length (published s))) ->
  map number (published (step s e)) = numbers_down (length (published (step s e)))
  /\ Z.of_nat (length (published (step s e))) <= message_count (step s e)
     <= Z.of_nat (length (published (step s e))) + 1
  /\ (at_point (step s e) = Counted ->
      message_count (step s e) = Z.of_nat (length (published (step s e))) + 1)
  /\ (at_point (step s e) = Publishing \/ at_point (step s e) = Published ->
      message_count (step s e) = Z.of_nat (length (published (step s e)))).
Proof.
  destruct s as [[established code] p start count pub]. cbn.
  intros Hout (Hnum & Hbounds & Hcounted & Hloop).
  destruct p, e as [rc|now| |]; cbn in *;
    try specialize (Hout eq_refl); try specialize (Hout ltac:(discriminate));
    try specialize (Hcounted eq_refl);
    try specialize (Hloop (or_introl eq_refl));
    try specialize (Hloop (or_intror eq_refl));
    repeat match goal with
           | |- context [if established then _ else _] => destruct established; cbn
           | |- context [match code with _ => _ end] => destruct code; cbn
           | |- context [Qcompare ?a ?b] => destruct (Qcompare a b); cbn
           end;
    try match type of Hout with _ /\ _ => destruct Hout as [-> ->]; cbn end;
    try rewrite numbers_down_S; try rewrite <- Hnum;
    (split; [try reflexivity; try (f_equal; lia)
            |split; [lia
                    |split; [intros Hp; try discriminate; try lia
                            |intros [Hp|Hp]; try discriminate; try lia]]]).
Qed.

(** X18. In every execution the publish calls are numbered without gap or
    repetition: the latest carries the number of the calls made so far,
    the first the number 1. The counter of the loop is that number of
    calls, except between the increment of line 136 and the call of
    line 148, where it is one ahead. *)
Theorem messages_numbered_from_one evs :
  map number (published (run initial evs))
  = numbers_down (length (published (run initial evs)))
  /\ Z.of_nat (length (published (run initial evs))) <= message_count (run initial evs)
     <= Z.of_nat (length (published (run initial evs))) + 1
  /\ (at_point (run initial evs) = Counted ->
      message_count (run initial evs)
      = Z.of_nat (length (published (run initial evs))) + 1)
  /\ (at_point (run initial evs) = Publishing \/ at_point (run initial evs) = Published ->
      message_count (run initial evs) = Z.of_nat (length (published (run initial evs)))).
Proof.
  induction evs as [|e evs IH] using rev_ind.
  - cbn. repeat split; try lia; try discriminate; intros [H|H]; discriminate.
  - rewrite run_snoc. apply step_numbering; [|exact IH].
    apply (run_invariant evs).
Qed.

(** In the publishing loop the main thread reads neither flag: two states
    that differ in the flags only take the same steps. Every step of the
    main thread brings the next publish call one third nearer. *)
Lemma loop_ignores_flags evs : forall s s',
  in_loop (at_point s) = true ->
  uninterrupted evs = true ->
  at_point s' = at_point s ->
  message_count s' = message_count s ->
  published s' = published s ->
  in_loop (at_point (run s evs)) = true
  /\ at_point (run s' (without_callbacks evs)) = at_point (run s evs)
  /\ message_count (run s' (without_callbacks evs)) = message_count (run s evs)
  /\ published (run s' (without_callbacks evs)) = published (run s evs)
  /\ (3 * length (published (run s evs)) + loop_phase (at_point (run s evs))
      = 3 * length (published s) + loop_phase (at_point s) + main_steps evs)%nat.
Proof.
  induction evs as [|e evs IH]; intros s s' Hp Hev Hpoint Hcount Hpub.
  - cbn. repeat split; try assumption. lia.
  - cbn in Hev. apply andb_true_iff in Hev as [He Hevs].
    destruct s as [flags p start count pub], s' as [flags' p' start' count' pub'].
    cbn in Hp, Hpoint, Hcount, Hpub. subst p' count' pub'.
    destruct e as [rc|now| |]; try discriminate.
    + (* a callback: the state keeps its point, counter and calls *)
      destruct (IH (step (State flags p start count pub) (OnConnect rc))
                   (State flags' p start' count pub))
        as (H1 & H2 & H3 & H4 & H5);
        try exact Hevs; try (destruct p; try discriminate; reflexivity).
      change (run (State flags p start count pub) (OnConnect rc :: evs))
        with (run (step (State flags p start count pub) (OnConnect rc)) evs).
      cbn [without_callbacks main_steps].
      repeat (split; [assumption|]). rewrite H5.
      destruct p; try discriminate; reflexivity.
    + (* a step of the main thread *)
      destruct (IH (step (State flags p start count pub) (Tick now))
                   (step (State flags' p start' count pub) (Tick now)))
        as (H1 & H2 & H3 & H4 & H5);
        try exact Hevs; try (destruct p; try discriminate; reflexivity).
      change (run (State flags p start count pub) (Tick now :: evs))
        with (run (step (State flags p start count pub) (Tick now)) evs).
      change (run (State flags' p start' count pub) (without_callbacks (Tick now :: evs)))
        with (run (step (State flags' p start' count pub) (Tick now))
                (without_callbacks evs)).
      cbn [main_steps].
      repeat (split; [assumption|]). rewrite H5.
      destruct p; try discriminate; cbn; lia.
Qed.

(** X19. Once the publishing loop runs, no connection callback stops it
    or changes what it does: whatever the callbacks report, the main
    thread stays in the loop and makes the publish calls that it makes
    without them, one at every third of its steps, until an interrupt or
    an exception. *)
Theorem publishing_ignores_callbacks s evs :
  in_loop (at_point s) = true ->
  uninterrupted evs = true ->
  in_loop (at_point (run s evs)) = true
  /\ at_point (run s (without_callbacks evs)) = at_point (run s evs)
  /\ message_count (run s (without_callbacks evs)) = message_count (run s evs)
  /\ published (run s (without_callbacks evs)) = published (run s evs)
  /\ length (published (run s evs))
     = (length (published s) + (main_steps evs + loop_phase (at_point s)) / 3)%nat.
Proof.
  intros Hp Hev.
  destruct (loop_ignores_flags evs s s Hp Hev eq_refl eq_refl eq_refl)
    as (H1 & H2 & H3 & H4 & H5).
  repeat (split; [assumption|]).
  assert (Hphase : (loop_phase (at_point (run s evs)) < 3)%nat)
    by (destruct (at_point (run s evs)); cbn; lia).
  assert (Hdiv : (length (published (run s evs)) - length (published s))%nat
                 = ((main_steps evs + loop_phase (at_point s)) / 3)%nat).
  { apply (Nat.div_unique _ 3 _ (loop_phase (at_point (run s evs)))); lia. }
  rewrite <- Hdiv. lia.
Qed.



(** What an error code and an exit with status 1 come from. *)
Lemma run_reasons evs :
  (forall rc, connection_error_code (shared (run initial evs)) = Some rc ->
     rc <> 0 /\ In (OnConnect rc) evs)
  /\ (at_point (run initial evs) = Exited 1 ->
      (exists rc, rc <> 0 /\ In (OnConnect rc) evs)
      \/ (exists now,
            In (Tick now) evs
            /\ (connection_timeout < now - connection_start_time (run initial evs))%Q)).
Proof.
  induction evs as [|e evs IH] using rev_ind.
  - cbn. split; intros; discriminate.
  - rewrite run_snoc. destruct IH as (Hcode & Hexit).
    assert (Hin : forall x, In x evs -> In x (evs ++ [e]))
      by (intros x Hx; apply in_or_app; left; exact Hx).
    assert (Hlast : In e (evs ++ [e])) by (apply in_or_app; right; left; reflexivity).
    assert (Hexit' : at_point (run initial evs) = Exited 1 ->
      (exists rc, rc <> 0 /\ In (OnConnect rc) (evs ++ [e]))
      \/ (exists now,
            In (Tick now) (evs ++ [e])
            /\ (connection_timeout < now - connection_start_time (run initial evs))%Q)).
    { intros H. destruct (Hexit H) as [(rc & ? & ?)|(now & ? & ?)]; [left|right]; eauto. }
    assert (Hcode' : forall rc,
      connection_error_code (shared (run initial evs)) = Some rc ->
      rc <> 0 /\ In (OnConnect rc) (evs ++ [e])).
    { intros rc H. destruct (Hcode rc H). auto. }
    clear Hexit Hcode.
    destruct (run initial evs) as [[established code] p start count pub].
    cbn in *.
    destruct p, e as [rc|now| |]; cbn in *; unfold on_connect; cbn;
      repeat match goal with
             | |- context [rc =? 0] => destruct (Z.eqb_spec rc 0); cbn
             | |- context [if established then _ else _] => destruct established; cbn
             | |- context [match code with _ => _ end] => destruct code eqn:?; cbn
             | |- context [Qcompare ?a ?b] => destruct (Qcompare a b) eqn:?; cbn
             end;
      (split; [intros rc' Hrc'|intros Hgone]); try discriminate;
      try (injection Hrc' as <-); auto;
      try (left; eexists; apply Hcode'; reflexivity);
      try (right; exists now; split; [exact Hlast|apply Qgt_alt; assumption]).
Qed.

(** X21. The process gives up with status 1 for two reasons only: a
    connection callback with a return code other than 0, or a reading of
    the clock more than 30 seconds after the start of the wait. *)
Theorem exit_status_one_has_a_reason evs :
  at_point (run initial evs) = Exited 1 ->
  (exists rc, rc <> 0 /\ In (OnConnect rc) evs)
  \/ (exists now,
        In (Tick now) evs
        /\ (connection_timeout < now - connection_start_time (run initial evs))%Q).
Proof. apply (run_reasons evs). Qed.

End Pub2More.

(** An interrupt between the increment of line 136 and the publish call of
    line 148: the counter stands at 1 and no call has been made. *)
Example run_interrupted_before_publish :
  Pub2.run Pub2.initial
    [Pub2.Tick 100; Pub2.OnConnect 0; Pub2.Tick 100; Pub2.Tick 100; Pub2.Tick 100;
     Pub2.Interrupt]
  = Pub2.State (Pub2.Flags true None) (Pub2.Exited 0) 100 1 [].
Proof. vm_compute. reflexivity. Qed.

(** Two iterations of the loop and the start of a third. *)
Example run_two_messages :
  Pub2.run Pub2.initial
    [Pub2.Tick 100; Pub2.OnConnect 0; Pub2.Tick 100; Pub2.Tick 100;
     Pub2.Tick 100; Pub2.Tick 101; Pub2.Tick 106;
     Pub2.Tick 106; Pub2.Tick 106; Pub2.Tick 111;
     Pub2.Tick 111]
  = Pub2.State (Pub2.Flags true None) Pub2.Counted 100 3
      [Pub2.Message 2 106; Pub2.Message 1 101].
Proof. vm_compute. reflexivity. Qed.

Lemma publishing_ignores_callbacks_witness :
  Pub2.in_loop
    (Pub2.at_point
       (Pub2.run (Pub2.State (Pub2.Flags true None) Pub2.Publishing 100 0 [])
          [Pub2.Tick 101; Pub2.OnConnect 5; Pub2.Tick 106; Pub2.OnConnect 0;
           Pub2.Tick 111; Pub2.Tick 112])) = true
  /\ Pub2.at_point
       (Pub2.run (Pub2.State (Pub2.Flags true None) Pub2.Publishing 100 0 [])
          (without_callbacks
             [Pub2.Tick 101; Pub2.OnConnect 5; Pub2.Tick 106; Pub2.OnConnect 0;
              Pub2.Tick 111; Pub2.Tick 112]))
     = Pub2.at_point
         (Pub2.run (Pub2.State (Pub2.Flags true None) Pub2.Publishing 100 0 [])
            [Pub2.Tick 101; Pub2.OnConnect 5; Pub2.Tick 106; Pub2.OnConnect 0;
             Pub2.Tick 111; Pub2.Tick 112])
  /\ Pub2.message_count
       (Pub2.run (Pub2.State (Pub2.Flags true None) Pub2.Publishing 100 0 [])
          (without_callbacks
             [Pub2.Tick 101; Pub2.OnConnect 5; Pub2.Tick 106; Pub2.OnConnect 0;
              Pub2.Tick 111; Pub2.Tick 112]))
     = Pub2.message_count
         (Pub2.run (Pub2.State (Pub2.Flags true None) Pub2.Publishing 100 0 [])
            [Pub2.Tick 101; Pub2.OnConnect 5; Pub2.Tick 106; Pub2.OnConnect 0;
             Pub2.Tick 111; Pub2.Tick 112])
  /\ Pub2.published
       (Pub2.run (Pub2.State (Pub2.Flags true None) Pub2.Publishing 100 0 [])
          (without_callbacks
             [Pub2.Tick 101; Pub2.OnConnect 5; Pub2.Tick 106; Pub2.OnConnect 0;
              Pub2.Tick 111; Pub2.Tick 112]))
     = Pub2.published
         (Pub2.run (Pub2.State (Pub2.Flags true None) Pub2.Publishing 100 0 [])
            [Pub2.Tick 101; Pub2.OnConnect 5; Pub2.Tick 106; Pub2.OnConnect 0;
             Pub2.Tick 111; Pub2.Tick 112])
  /\ length
       (Pub2.published
          (Pub2.run (Pub2.State (Pub2.Flags true None) Pub2.Publishing 100 0 [])
             [Pub2.Tick 101; Pub2.OnConnect 5; Pub2.Tick 106; Pub2.OnConnect 0;
              Pub2.Tick 111; Pub2.Tick 112]))
     = (length (Pub2.published
                  (Pub2.State (Pub2.Flags true None) Pub2.Publishing 100 0 []))
        + (main_steps [Pub2.Tick 101; Pub2.OnConnect 5; Pub2.Tick 106; Pub2.OnConnect 0;
                       Pub2.Tick 111; Pub2.Tick 112]
           + loop_phase
               (Pub2.at_point
                  (Pub2.State (Pub2.Flags true None) Pub2.Publishing 100 0 []))) / 3)%nat.
Proof.
  apply (publishing_ignores_callbacks
           (Pub2.State (Pub2.Flags true None) Pub2.Publishing 100 0 [])
           [Pub2.Tick 101; Pub2.OnConnect 5; Pub2.Tick 106; Pub2.OnConnect 0;
            Pub2.Tick 111; Pub2.Tick 112]);
    reflexivity.
Defined.


Lemma exit_status_one_has_a_reason_witness :
  (exists rc, rc <> 0
     /\ In (Pub2.OnConnect rc)
          [Pub2.Tick 100; Pub2.Tick 100; Pub2.Tick 100; Pub2.Tick 100; Pub2.Tick 131])
  \/ (exists now,
        In (Pub2.Tick now)
          [Pub2.Tick 100; Pub2.Tick 100; Pub2.Tick 100; Pub2.Tick 100; Pub2.Tick 131]
        /\ (Pub2.connection_timeout
            < now - Pub2.connection_start_time
                (Pub2.run Pub2.initial
                   [Pub2.Tick 100; Pub2.Tick 100; Pub2.Tick 100; Pub2.Tick 100;
                    Pub2.Tick 131]))%Q).
Proof.
  apply (exit_status_one_has_a_reason
           [Pub2.Tick 100; Pub2.Tick 100; Pub2.Tick 100; Pub2.Tick 100; Pub2.Tick 131]).
  vm_compute. reflexivity.
Defined.

(** ** Requests do not influence one another *)

(** The response of the handler depends on the globals only, not on the
    publish calls made. *)
Lemma lambda_handler_reads_globals rt event w w' :
  mem w = mem w' -> (lambda_handler rt event w).1 = (lambda_handler rt event w').1.
Proof.
  intros Hmem. unfold lambda_handler.
  destruct (dumps_event rt event) as [logged|e0]; [|reflexivity].
  run_M. rewrite <- Hmem.
  destruct (LABELS_LOADED_SUCCESSFULLY (mem w)); cbn.
  2: { destruct (publish_response rt _ w) as [[] ?],
         (publish_response rt _ w') as [[] ?]. reflexivity. }
  destruct (nonempty (SAGEMAKER_ENDPOINT_NAME (mem w))); cbn; [|reflexivity].
  destruct (extract_image_data rt event) as [image_b64|e].
  2: { destruct (publish_response rt _ w) as [[] ?],
         (publish_response rt _ w') as [[] ?]. reflexivity. }
  destruct (b64decode rt image_b64) as [image_bytes|e].
  2: { destruct (publish_response rt _ w) as [[] ?],
         (publish_response rt _ w') as [[] ?]. reflexivity. }
  destruct (preprocess rt image_bytes) as [processed_image|e].
  2: { destruct (publish_response rt _ w) as [[] ?],
         (publish_response rt _ w') as [[] ?]. reflexivity. }
  destruct (infer rt (mem w) processed_image) as [[status output_payload]|e];
    destruct (publish_response rt _ w) as [[] ?],
      (publish_response rt _ w') as [[] ?]; reflexivity.
Qed.

(** X22. The handler keeps nothing from one request to the next: the
    response to an event is the same after any list of earlier requests as
    in the process that has served none. *)
Theorem response_independent_of_history rt earlier event w :
  (lambda_handler rt event (serve rt earlier w)).1 = (lambda_handler rt event w).1.
Proof. apply lambda_handler_reads_globals. apply serve_mem. Qed.
